(** * Webhook dispatch of eldercrank/stripe-core

    A shallow embedding of the webhook path of
    [src/eldercrank/stripe/core/handler.py], [manager.py] and [models.py]:
    the event model, the handler registry, and [process_webhook] with its
    exceptions, its log records and its callback invocations. *)

From stdpp Require Import base option list strings gmap fin_maps.

#[local] Set Warnings "-register-all".
Local Open Scope string_scope.

(** ** Python values *)

(** The values a decoded JSON payload is made of.  A Python [dict] with string
    keys is a finite map, so that [==] on dicts is equality of maps. *)
Inductive pyval : Type :=
| PNone
| PBool (b : bool)
| PInt (n : Z)
| PStr (s : string)
| PList (l : list pyval)
| PDict (d : gmap string pyval).

(** [d.get(key, default)] of a Python dict. *)
Definition dict_get {V : Type} (d : gmap string V) (key : string) (default : V) : V :=
  match d !! key with
  | Some v => v
  | None => default
  end.

(** [key in d]. *)
Definition dict_contains {V : Type} (d : gmap string V) (key : string) : bool :=
  if d !! key is Some _ then true else false.

(** ** Exceptions *)

(** The exception classes that occur on the webhook path.  [ValidationError]
    is pydantic's (a subclass of [ValueError]); [SignatureVerificationError] is
    stripe's (a [StripeError], not a [ValueError]); [OtherException] stands for
    any further subclass of [Exception] a callback or the library may raise, and
    [BaseOnly] for the classes that derive from [BaseException] alone
    ([KeyboardInterrupt], [SystemExit]). *)
Inductive exn : Type :=
| ValueError (msg : string)
| ValidationError (fields : list string)
| SignatureVerificationError (msg : string)
| KeyError (key : string)
| TypeError (msg : string)
| OtherException (cls msg : string)
| BaseOnly (cls : string).

(** [isinstance(e, ValueError)]. *)
Definition isinstance_ValueError (e : exn) : bool :=
  match e with
  | ValueError _ | ValidationError _ => true
  | _ => false
  end.

(** [isinstance(e, stripe.error.SignatureVerificationError)]. *)
Definition isinstance_SignatureVerificationError (e : exn) : bool :=
  match e with
  | SignatureVerificationError _ => true
  | _ => false
  end.

(** [isinstance(e, Exception)]. *)
Definition isinstance_Exception (e : exn) : bool :=
  match e with
  | BaseOnly _ => false
  | _ => true
  end.

(** [d[key]] of a dict: [KeyError] when the key is absent. *)
Definition getitem {V : Type} (d : gmap string V) (key : string) : V + exn :=
  match d !! key with
  | Some v => inl v
  | None => inr (KeyError key)
  end.

(** ** Callbacks and the values of the local variable [handlers] *)

(** A registered callback is a plain Python function: an object identity and
    its [__name__]. *)
Record pyfunc : Type := mkFunc { fn_id : positive; fn_name : string }.

#[global] Instance pyfunc_eq_dec : EqDecision pyfunc.
Proof. solve_decision. Defined.

(** The registry maps an event name to ONE function, and [get(..., [])]
    defaults to a list, a new one at each call, shared with nothing: the
    variable [handlers] holds either. *)
Inductive hval : Type :=
| HFunc (f : pyfunc)
| HList (l : list pyfunc).

(** [self._event_handlers.get(event_type, [])]. *)
Definition handlers_get (reg : gmap string pyfunc) (key : string) : hval :=
  dict_get (HFunc <$> reg) key (HList []).

(** Truth value: a function object is true, a list is true when non-empty. *)
Definition truthy (h : hval) : bool :=
  match h with
  | HFunc _ => true
  | HList l => if l is [] then false else true
  end.

(** [a += b].  A list extends itself in place with the ITEMS of [b], so [b]
    has to be iterable; a function has neither [__iadd__] nor [__add__], and
    neither list nor function has [__radd__]. *)
Definition iadd (a b : hval) : hval + exn :=
  match a, b with
  | HList l, HList l' => inl (HList (l ++ l'))
  | HList _, HFunc _ => inr (TypeError "'function' object is not iterable")
  | HFunc _, HList _ =>
      inr (TypeError "unsupported operand type(s) for +=: 'function' and 'list'")
  | HFunc _, HFunc _ =>
      inr (TypeError "unsupported operand type(s) for +=: 'function' and 'function'")
  end.

(** [iter(h)], as the [for] statement takes it. *)
Definition iter (h : hval) : list pyfunc + exn :=
  match h with
  | HList l => inl l
  | HFunc _ => inr (TypeError "'function' object is not iterable")
  end.

(** ** What a call leaves behind *)

Inductive level : Type := DEBUG | INFO | WARNING | ERROR.

(** The log messages of the webhook path, by their f-string. *)
Inductive message : Type :=
| Received (ty idv : pyval)
| VerificationFailed (e : exn)
| ParsingFailed (e : exn)
| NoHandlers (event_type : string)
| HandlerOk (name event_type : string)
| HandlerError (name event_type : string) (e : exn)
| AddedHandler (event_name : string)
| RemovedHandler (event_name : string)
| NoHandlerFound (event_name : string).

Inductive effect : Type :=
| Log (lvl : level) (msg : message)
| Invoke (f : pyfunc) (arg : pyval).

(** The callback invocations of a trace, in order. *)
Definition invoked (t : list effect) : list (pyfunc * pyval) :=
  omap (fun e => match e with Invoke f a => Some (f, a) | Log _ _ => None end) t.

(** ** The state and exception monad *)

Definition M (S A : Type) : Type := S -> (A + exn) * S.

Definition ret {S A} (a : A) : M S A := fun st => (inl a, st).

Definition raise {S A} (e : exn) : M S A := fun st => (inr e, st).

Definition bind {S A B} (m : M S A) (k : A -> M S B) : M S B :=
  fun st =>
    match m st with
    | (inl a, st') => k a st'
    | (inr e, st') => (inr e, st')
    end.

(** A Python expression that only computes: its value or its exception. *)
Definition lift {S A} (r : A + exn) : M S A :=
  match r with
  | inl a => ret a
  | inr e => raise e
  end.

Definition gets {S A} (f : S -> A) : M S A := fun st => (inl (f st), st).

(** [try: body  except <catches> as e: handler e]. *)
Definition try_except {S A} (body : M S A) (catches : exn -> bool)
    (handler : exn -> M S A) : M S A :=
  fun st =>
    match body st with
    | (inl a, st') => (inl a, st')
    | (inr e, st') => if catches e then handler e st' else (inr e, st')
    end.

(** [try: body  except <c1> as e: h1 e  except <c2> as e: h2 e]: the first
    clause that matches is taken. *)
Definition try_except2 {S A} (body : M S A) (c1 : exn -> bool) (h1 : exn -> M S A)
    (c2 : exn -> bool) (h2 : exn -> M S A) : M S A :=
  fun st =>
    match body st with
    | (inl a, st') => (inl a, st')
    | (inr e, st') =>
        if c1 e then h1 e st' else if c2 e then h2 e st' else (inr e, st')
    end.

Declare Scope py_scope.
Delimit Scope py_scope with py.
Notation "x <~ c ;; k" := (bind c (fun x => k))
  (at level 100, c at next level, right associativity) : py_scope.
Notation "c ;;; k" := (bind c (fun _ => k))
  (at level 100, right associativity) : py_scope.

(** [for x in l: body x]. *)
Fixpoint for_in {S} (l : list pyfunc) (body : pyfunc -> M S unit) : M S unit :=
  match l with
  | [] => ret tt
  | x :: l' => bind (body x) (fun _ => for_in l' body)
  end.

(** ** models.py *)

Module Models.

(** [class StripeEvent(BaseModel)]; the attribute [type] is a keyword here. *)
Record StripeEvent : Type := mkStripeEvent {
  id : string;
  type_ : string;
  data : gmap string pyval;
  api_version : option string
}.

(** The property [event_object]: [self.data.get("object", {})]. *)
Definition event_object (self : StripeEvent) : pyval :=
  dict_get (data self) "object" (PDict ∅).

(** pydantic's validation of one keyword argument: the value, or the name of
    the field in error. *)
Definition required_str (kw : gmap string pyval) (name : string) : string + string :=
  match kw !! name with
  | Some (PStr s) => inl s
  | _ => inr name
  end.

Definition required_dict (kw : gmap string pyval) (name : string)
    : gmap string pyval + string :=
  match kw !! name with
  | Some (PDict d) => inl d
  | _ => inr name
  end.

Definition optional_str (kw : gmap string pyval) (name : string)
    : option string + string :=
  match kw !! name with
  | None | Some PNone => inl None
  | Some (PStr s) => inl (Some s)
  | Some _ => inr name
  end.

Definition errors_of {A} (r : A + string) : list string :=
  match r with
  | inl _ => []
  | inr name => [name]
  end.

(** The constructor [StripeEvent], called with the keyword arguments [kw]:
    [id], [type] and [data] are required, [api_version]
    defaults to [None], other keys are ignored; the fields in error are
    collected in one [ValidationError]. *)
Definition StripeEvent_init (kw : gmap string pyval) : StripeEvent + exn :=
  let i := required_str kw "id" in
  let t := required_str kw "type" in
  let d := required_dict kw "data" in
  let a := optional_str kw "api_version" in
  match i, t, d, a with
  | inl i', inl t', inl d', inl a' => inl (mkStripeEvent i' t' d' a')
  | _, _, _, _ =>
      inr (ValidationError (errors_of i ++ errors_of t ++ errors_of d ++ errors_of a))
  end.

End Models.

(** ** The collaborators *)

(** [stripe.Webhook.construct_event] and the bodies of the registered
    callbacks are not code of this package.  The first returns the decoded
    event (a dict) or raises; a callback returns or raises, and, holding a
    reference to the object it was registered on, may change its registry. *)
Class Runtime : Type := {
  construct_event : string -> string -> option string -> gmap string pyval + exn;
  call : pyfunc -> pyval -> gmap string pyfunc -> option exn * gmap string pyfunc
}.

(** ** handler.py *)

Module StripeHandler.

(** The attributes of a [StripeHandler]; [trace] is what its logger and its
    callbacks have been asked to do so far, oldest first. *)
Record state : Type := mkState {
  api_key : string;
  webhook_secret : option string;
  _event_handlers : gmap string pyfunc;
  trace : list effect
}.

Definition set_handlers (reg : gmap string pyfunc) (st : state) : state :=
  mkState (api_key st) (webhook_secret st) reg (trace st).

Definition emit (e : effect) (st : state) : state :=
  mkState (api_key st) (webhook_secret st) (_event_handlers st) (trace st ++ [e]).

(** [__init__]: an empty registry. *)
Definition init (api_key : string) (webhook_secret : option string) : state :=
  mkState api_key webhook_secret ∅ [].

(** [self.logger.<lvl>(msg)]. *)
Definition log (lvl : level) (msg : message) : M state unit :=
  fun st => (inl tt, emit (Log lvl msg) st).

(** [self._event_handlers[event_name] = handler]. *)
Definition add_event_handler (event_name : string) (handler : pyfunc) : M state unit :=
  fun st => (inl tt, set_handlers (<[event_name := handler]> (_event_handlers st)) st).

(** [if event_name in self._event_handlers: del self._event_handlers[event_name]]. *)
Definition remove_event_handler (event_name : string) : M state unit :=
  fun st =>
    if dict_contains (_event_handlers st) event_name
    then (inl tt, set_handlers (delete event_name (_event_handlers st)) st)
    else (inl tt, st).

Section Dispatch.
Context `{Runtime}.
Local Open Scope py_scope.

(** [handler(arg)]: the call is recorded, the callback may have changed the
    registry, and it returned or raised. *)
Definition invoke (handler : pyfunc) (arg : pyval) : M state unit :=
  fun st =>
    let '(r, reg) := call handler arg (_event_handlers st) in
    let st' := set_handlers reg (emit (Invoke handler arg) st) in
    match r with
    | None => (inl tt, st')
    | Some e => (inr e, st')
    end.

(** Lines 86-93: the [try] around [construct_event] and the first log
    record, whose f-string reads [event['type']] and [event['id']]. *)
Definition verify (payload sig_header : string) : M state (gmap string pyval) :=
  try_except
    (secret <~ gets webhook_secret ;;
     event <~ lift (construct_event payload sig_header secret) ;;
     ty <~ lift (getitem event "type") ;;
     idv <~ lift (getitem event "id") ;;
     log INFO (Received ty idv) ;;;
     ret event)
    (fun e => isinstance_ValueError e || isinstance_SignatureVerificationError e)
    (fun e => log ERROR (VerificationFailed e) ;;; raise e).

(** Lines 97-102: the callbacks of this delivery. *)
Definition resolve (event_type : string) : M state hval :=
  handlers <~ gets (fun st => handlers_get (_event_handlers st) event_type) ;;
  (if negb (truthy handlers) then log WARNING (NoHandlers event_type) else ret tt) ;;;
  wildcard <~ gets (fun st => handlers_get (_event_handlers st) "*") ;;
  lift (iadd handlers wildcard).

(** Lines 104-113: the loop, each call in its own [try]. *)
Definition dispatch (handlers : list pyfunc) (event_model : Models.StripeEvent)
    : M state unit :=
  for_in handlers (fun handler =>
    try_except
      (invoke handler (Models.event_object event_model) ;;;
       log DEBUG (HandlerOk (fn_name handler) (Models.type_ event_model)))
      isinstance_Exception
      (fun e => log ERROR (HandlerError (fn_name handler) (Models.type_ event_model) e))).

Definition process_webhook (payload sig_header : string) : M state Models.StripeEvent :=
  event <~ verify payload sig_header ;;
  event_model <~ lift (Models.StripeEvent_init event) ;;
  handlers <~ resolve (Models.type_ event_model) ;;
  items <~ lift (iter handlers) ;;
  dispatch items event_model ;;;
  ret event_model.

End Dispatch.

End StripeHandler.

(** ** manager.py *)

Module StripeManager.

Record state : Type := mkState {
  api_key : string;
  _webhook_handlers : gmap string pyfunc;
  trace : list effect
}.

Definition set_handlers (reg : gmap string pyfunc) (st : state) : state :=
  mkState (api_key st) reg (trace st).

Definition emit (e : effect) (st : state) : state :=
  mkState (api_key st) (_webhook_handlers st) (trace st ++ [e]).

Definition init (api_key : string) : state := mkState api_key ∅ [].

Definition log (lvl : level) (msg : message) : M state unit :=
  fun st => (inl tt, emit (Log lvl msg) st).

Local Open Scope py_scope.

Definition add_webhook_handler (event_name : string) (handler : pyfunc) : M state unit :=
  (fun st => (inl tt, set_handlers (<[event_name := handler]> (_webhook_handlers st)) st)) ;;;
  log INFO (AddedHandler event_name).

Definition remove_webhook_handler (event_name : string) : M state unit :=
  present <~ gets (fun st => dict_contains (_webhook_handlers st) event_name) ;;
  if present : bool
  then (fun st => (inl tt, set_handlers (delete event_name (_webhook_handlers st)) st)) ;;;
       log INFO (RemovedHandler event_name)
  else log WARNING (NoHandlerFound event_name).

Section Dispatch.
Context `{Runtime}.

Definition invoke (handler : pyfunc) (arg : pyval) : M state unit :=
  fun st =>
    let '(r, reg) := call handler arg (_webhook_handlers st) in
    let st' := set_handlers reg (emit (Invoke handler arg) st) in
    match r with
    | None => (inl tt, st')
    | Some e => (inr e, st')
    end.

(** Lines 92-100: two [except] clauses, [ValueError] first. *)
Definition verify (payload sig_header webhook_secret : string)
    : M state (gmap string pyval) :=
  try_except2
    (event <~ lift (construct_event payload sig_header (Some webhook_secret)) ;;
     ty <~ lift (getitem event "type") ;;
     idv <~ lift (getitem event "id") ;;
     log INFO (Received ty idv) ;;;
     ret event)
    isinstance_ValueError
    (fun e => log ERROR (ParsingFailed e) ;;; raise e)
    isinstance_SignatureVerificationError
    (fun e => log ERROR (VerificationFailed e) ;;; raise e).

(** Lines 104-109. *)
Definition resolve (event_type : string) : M state hval :=
  handlers <~ gets (fun st => handlers_get (_webhook_handlers st) event_type) ;;
  (if negb (truthy handlers) then log WARNING (NoHandlers event_type) else ret tt) ;;;
  wildcard <~ gets (fun st => handlers_get (_webhook_handlers st) "*") ;;
  lift (iadd handlers wildcard).

(** Lines 111-120. *)
Definition dispatch (handlers : list pyfunc) (event_model : Models.StripeEvent)
    : M state unit :=
  for_in handlers (fun handler =>
    try_except
      (invoke handler (Models.event_object event_model) ;;;
       log DEBUG (HandlerOk (fn_name handler) (Models.type_ event_model)))
      isinstance_Exception
      (fun e => log ERROR (HandlerError (fn_name handler) (Models.type_ event_model) e))).

Definition process_webhook_payload (payload sig_header webhook_secret : string)
    : M state Models.StripeEvent :=
  event <~ verify payload sig_header webhook_secret ;;
  event_model <~ lift (Models.StripeEvent_init event) ;;
  handlers <~ resolve (Models.type_ event_model) ;;
  items <~ lift (iter handlers) ;;
  dispatch items event_model ;;;
  ret event_model.

End Dispatch.

End StripeManager.

(** ** The remote API

    The data operations of both classes are calls into the stripe library.
    A call is recorded with the API key in force, [stripe.api_key], a global
    of the library; what the library answers is not code of this package and
    may depend on the calls made before. *)

Module Remote.

Record api_call : Type := mkCall {
  api_method : string;
  api_target : option string;
  api_kwargs : gmap string pyval;
  api_key_used : option string
}.

(** The log records of the data operations: an f-string with one value, or
    with an optional identifier and [str(e)]. *)
Inductive record : Type :=
| Info (text : string) (v : pyval)
| Failure (text : string) (subject : option string) (e : exn).

Record world : Type := mkWorld {
  stripe_api_key : option string;
  calls : list api_call;
  records : list record
}.

Class StripeAPI : Type := {
  request : list api_call -> api_call -> gmap string pyval + exn;
  request_list : list api_call -> api_call -> list (gmap string pyval) + exn
}.

(** The classes [__init__.py] imports from [stripe._error], all of them
    [StripeError] or subclasses of it. *)
Definition stripe_error_classes : list string :=
  ["APIConnectionError"; "APIError"; "AuthenticationError"; "CardError";
   "IdempotencyError"; "InvalidRequestError"; "PermissionError"; "RateLimitError";
   "StripeError"; "TemporarySessionExpiredError"].

(** [isinstance(e, stripe.error.StripeError)]. *)
Definition isinstance_StripeError (e : exn) : bool :=
  match e with
  | SignatureVerificationError _ => true
  | OtherException cls _ => bool_decide (cls ∈ stripe_error_classes)
  | _ => false
  end.

(** [obj.name] on an object of the library: [AttributeError] when it has no
    such field. *)
Definition getattr (obj : gmap string pyval) (name : string) : pyval + exn :=
  match obj !! name with
  | Some v => inl v
  | None => inr (OtherException "AttributeError" name)
  end.

(** Truth value of a Python value. *)
Definition py_truthy (v : pyval) : bool :=
  match v with
  | PNone => false
  | PBool b => b
  | PInt n => negb (Z.eqb n 0)
  | PStr s => if s is EmptyString then false else true
  | PList l => if l is [] then false else true
  | PDict d => if map_to_list d is [] then false else true
  end.

(** [a or b]. *)
Definition py_or (a b : pyval) : pyval := if py_truthy a then a else b.

(** Arguments as Python values; [None] for an argument left out. *)
Definition py_str (o : option string) : pyval := from_option PStr PNone o.
Definition py_bool (o : option bool) : pyval := from_option PBool PNone o.
Definition py_int (o : option Z) : pyval := from_option PInt PNone o.
Definition py_strdict (o : option (gmap string string)) : pyval :=
  from_option (fun d => PDict (PStr <$> d)) PNone o.
Definition py_strlist (o : option (list string)) : pyval :=
  from_option (fun l => PList (PStr <$> l)) PNone o.
Definition py_dict (o : option (gmap string pyval)) : pyval := from_option PDict PNone o.

(** [if v is not None: d[key] = v]. *)
Definition set_if_not_None (key : string) (v : pyval) (d : gmap string pyval)
    : gmap string pyval :=
  if v is PNone then d else <[key := v]> d.

(** [if v: d[key] = v]. *)
Definition set_if (key : string) (v : pyval) (d : gmap string pyval) : gmap string pyval :=
  if py_truthy v then <[key := v]> d else d.

Definition log_info (text : string) (v : pyval) : M world unit :=
  fun w => (inl tt, mkWorld (stripe_api_key w) (calls w) (records w ++ [Info text v])).

Definition log_error (text : string) (subject : option string) (e : exn) : M world unit :=
  fun w =>
    (inl tt, mkWorld (stripe_api_key w) (calls w) (records w ++ [Failure text subject e])).

(** [stripe.api_key = key]. *)
Definition set_api_key (key : string) : M world unit :=
  fun w => (inl tt, mkWorld (Some key) (calls w) (records w)).

Section Calls.
Context `{StripeAPI}.

(** A call that answers with one object. *)
Definition call_api (method : string) (target : option string)
    (kwargs : gmap string pyval) : M world (gmap string pyval) :=
  fun w =>
    let c := mkCall method target kwargs (stripe_api_key w) in
    (request (calls w) c, mkWorld (stripe_api_key w) (calls w ++ [c]) (records w)).

(** A [list] call; the answer is iterated over as it is. *)
Definition call_api_list (method : string) (kwargs : gmap string pyval)
    : M world (list (gmap string pyval)) :=
  fun w =>
    let c := mkCall method None kwargs (stripe_api_key w) in
    (request_list (calls w) c, mkWorld (stripe_api_key w) (calls w ++ [c]) (records w)).

End Calls.

(** A dict display [{key: obj.attr, ...}], its entries evaluated in order. *)
Fixpoint view (obj : gmap string pyval) (fields : list (string * string))
    : gmap string pyval + exn :=
  match fields with
  | [] => inl ∅
  | (key, attr) :: rest =>
      match getattr obj attr with
      | inr e => inr e
      | inl v =>
          match view obj rest with
          | inr e => inr e
          | inl d => inl (<[key := v]> d)
          end
      end
  end.

(** A list comprehension [[f x for x in l]]. *)
Fixpoint comprehension {A B} (f : A -> B + exn) (l : list A) : list B + exn :=
  match l with
  | [] => inl []
  | x :: l' =>
      match f x with
      | inr e => inr e
      | inl y =>
          match comprehension f l' with
          | inr e => inr e
          | inl ys => inl (y :: ys)
          end
      end
  end.

(** The [try ... except stripe.error.StripeError as e: log; raise e] every
    data operation of the manager is wrapped in. *)
Definition guarded {A} (text : string) (subject : option string) (body : M world A)
    : M world A :=
  try_except body isinstance_StripeError
    (fun e => bind (log_error text subject e) (fun _ => raise e)).

End Remote.

(** ** manager.py, the data operations *)

Module StripeManagerData.
Import Remote.

Definition product_fields : list (string * string) :=
  [("id", "id"); ("name", "name"); ("description", "description");
   ("active", "active"); ("created", "created")].

Definition price_fields : list (string * string) :=
  [("id", "id"); ("product_id", "product"); ("unit_amount", "unit_amount");
   ("currency", "currency"); ("recurring", "recurring"); ("active", "active");
   ("created", "created")].

Definition customer_fields : list (string * string) :=
  [("id", "id"); ("name", "name"); ("email", "email"); ("description", "description");
   ("phone", "phone"); ("address", "address"); ("created", "created")].

Definition subscription_fields : list (string * string) :=
  [("id", "id"); ("customer_id", "customer"); ("status", "status");
   ("current_period_start", "current_period_start");
   ("current_period_end", "current_period_end"); ("created", "created")].

Definition checkout_fields : list (string * string) :=
  [("id", "id"); ("url", "url"); ("customer_id", "customer"); ("mode", "mode");
   ("status", "status"); ("expires_at", "expires_at"); ("created", "created")].

Definition portal_fields : list (string * string) :=
  [("id", "id"); ("url", "url"); ("customer_id", "customer"); ("created", "created");
   ("expires_at", "expires_at")].

Section Ops.
Context `{StripeAPI}.
Local Open Scope py_scope.

(** [__init__], lines 30-33: the key goes into the library's global. *)
Definition init (api_key : string) : M world StripeManager.state :=
  set_api_key api_key ;;;
  ret (StripeManager.init api_key).

Definition create_product (name : string) (description : option string) (active : bool)
    (metadata : option (gmap string string)) : M world (gmap string pyval) :=
  guarded "Error creating product" None
    (product <~ call_api "Product.create" None
       {[ "name" := PStr name;
          "description" := py_str description;
          "active" := PBool active;
          "metadata" := py_or (py_strdict metadata) (PDict ∅) ]} ;;
     pid <~ lift (getattr product "id") ;;
     log_info "Created product: " pid ;;;
     lift (view product product_fields)).

Definition retrieve_product (product_id : string) : M world (gmap string pyval) :=
  guarded "Error retrieving product" (Some product_id)
    (product <~ call_api "Product.retrieve" (Some product_id) ∅ ;;
     lift (view product product_fields)).

Definition update_product (product_id : string) (name description : option string)
    (active : option bool) (metadata : option (gmap string string))
    : M world (gmap string pyval) :=
  guarded "Error updating product" (Some product_id)
    (let update_params := ∅ in
     let update_params := set_if_not_None "name" (py_str name) update_params in
     let update_params := set_if_not_None "description" (py_str description) update_params in
     let update_params := set_if_not_None "active" (py_bool active) update_params in
     let update_params := set_if_not_None "metadata" (py_strdict metadata) update_params in
     product <~ call_api "Product.modify" (Some product_id) update_params ;;
     pid <~ lift (getattr product "id") ;;
     log_info "Updated product: " pid ;;;
     lift (view product product_fields)).

Definition delete_product (product_id : string) : M world (gmap string pyval) :=
  guarded "Error deleting product" (Some product_id)
    (product <~ call_api "Product.modify" (Some product_id) {[ "active" := PBool false ]} ;;
     pid <~ lift (getattr product "id") ;;
     log_info "Deactivated product: " pid ;;;
     i <~ lift (getattr product "id") ;;
     a <~ lift (getattr product "active") ;;
     ret {[ "id" := i; "deleted" := PBool true; "active" := a ]}).

Definition list_products (active : option bool) (limit : Z)
    : M world (list (gmap string pyval)) :=
  guarded "Error listing products" None
    (let params := {[ "limit" := PInt limit ]} in
     let params := set_if_not_None "active" (py_bool active) params in
     products <~ call_api_list "Product.list" params ;;
     lift (comprehension (fun p => view p product_fields) products)).

Definition create_price (product_id : string) (unit_amount : Z) (currency : string)
    (recurring : option (gmap string string)) (nickname : option string) (active : bool)
    : M world (gmap string pyval) :=
  guarded "Error creating price" None
    (let price_data :=
       {[ "product" := PStr product_id;
          "unit_amount" := PInt unit_amount;
          "currency" := PStr currency;
          "active" := PBool active ]} in
     let price_data := set_if "recurring" (py_strdict recurring) price_data in
     let price_data := set_if "nickname" (py_str nickname) price_data in
     price <~ call_api "Price.create" None price_data ;;
     pid <~ lift (getattr price "id") ;;
     log_info "Created price: " pid ;;;
     lift (view price price_fields)).

Definition list_prices (active : option bool) (product_id : option string) (limit : Z)
    : M world (list (gmap string pyval)) :=
  guarded "Error listing prices" None
    (let params := {[ "limit" := PInt limit ]} in
     let params := set_if_not_None "active" (py_bool active) params in
     let params := set_if_not_None "product" (py_str product_id) params in
     prices <~ call_api_list "Price.list" params ;;
     lift (comprehension (fun p => view p price_fields) prices)).

Definition retrieve_price (price_id : string) : M world (gmap string pyval) :=
  guarded "Error retrieving price" (Some price_id)
    (price <~ call_api "Price.retrieve" (Some price_id) ∅ ;;
     lift (view price price_fields)).

Definition update_price (price_id : string) (active : option bool)
    (nickname : option string) : M world (gmap string pyval) :=
  guarded "Error updating price" (Some price_id)
    (let update_params := ∅ in
     let update_params := set_if_not_None "active" (py_bool active) update_params in
     let update_params := set_if_not_None "nickname" (py_str nickname) update_params in
     price <~ call_api "Price.modify" (Some price_id) update_params ;;
     pid <~ lift (getattr price "id") ;;
     log_info "Updated price: " pid ;;;
     lift (view price price_fields)).

Definition delete_price (price_id : string) : M world (gmap string pyval) :=
  guarded "Error deleting price" (Some price_id)
    (price <~ call_api "Price.modify" (Some price_id) {[ "active" := PBool false ]} ;;
     pid <~ lift (getattr price "id") ;;
     log_info "Deactivated price: " pid ;;;
     i <~ lift (getattr price "id") ;;
     a <~ lift (getattr price "active") ;;
     ret {[ "id" := i; "deleted" := PBool true; "active" := a ]}).

Definition create_customer (name email description phone : option string)
    (address metadata : option (gmap string string)) : M world (gmap string pyval) :=
  guarded "Error creating customer" None
    (let customer_data := ∅ in
     let customer_data := set_if "name" (py_str name) customer_data in
     let customer_data := set_if "email" (py_str email) customer_data in
     let customer_data := set_if "description" (py_str description) customer_data in
     let customer_data := set_if "phone" (py_str phone) customer_data in
     let customer_data := set_if "address" (py_strdict address) customer_data in
     let customer_data := set_if "metadata" (py_strdict metadata) customer_data in
     customer <~ call_api "Customer.create" None customer_data ;;
     cid <~ lift (getattr customer "id") ;;
     log_info "Created customer: " cid ;;;
     lift (view customer customer_fields)).

Definition retrieve_customer (customer_id : string) : M world (gmap string pyval) :=
  guarded "Error retrieving customer" (Some customer_id)
    (customer <~ call_api "Customer.retrieve" (Some customer_id) ∅ ;;
     lift (view customer customer_fields)).

Definition update_customer (customer_id : string)
    (name email description phone : option string)
    (address metadata : option (gmap string string)) : M world (gmap string pyval) :=
  guarded "Error updating customer" (Some customer_id)
    (let update_params := ∅ in
     let update_params := set_if_not_None "name" (py_str name) update_params in
     let update_params := set_if_not_None "email" (py_str email) update_params in
     let update_params := set_if_not_None "description" (py_str description) update_params in
     let update_params := set_if_not_None "phone" (py_str phone) update_params in
     let update_params := set_if_not_None "address" (py_strdict address) update_params in
     let update_params := set_if_not_None "metadata" (py_strdict metadata) update_params in
     customer <~ call_api "Customer.modify" (Some customer_id) update_params ;;
     cid <~ lift (getattr customer "id") ;;
     log_info "Updated customer: " cid ;;;
     lift (view customer customer_fields)).

Definition delete_customer (customer_id : string) : M world (gmap string pyval) :=
  guarded "Error deleting customer" (Some customer_id)
    (customer <~ call_api "Customer.delete" (Some customer_id) ∅ ;;
     cid <~ lift (getattr customer "id") ;;
     log_info "Deleted customer: " cid ;;;
     lift (view customer [("id", "id"); ("deleted", "deleted")])).

Definition list_customers (limit : Z) : M world (list (gmap string pyval)) :=
  guarded "Error listing customers" None
    (customers <~ call_api_list "Customer.list" {[ "limit" := PInt limit ]} ;;
     lift (comprehension (fun c => view c customer_fields) customers)).

Definition create_subscription (customer_id price_id : string)
    (trial_period_days : option Z) (metadata : option (gmap string string))
    : M world (gmap string pyval) :=
  guarded "Error creating subscription" None
    (let subscription_data :=
       {[ "customer" := PStr customer_id;
          "items" := PList [PDict {[ "price" := PStr price_id ]}] ]} in
     let subscription_data :=
       set_if "trial_period_days" (py_int trial_period_days) subscription_data in
     let subscription_data := set_if "metadata" (py_strdict metadata) subscription_data in
     subscription <~ call_api "Subscription.create" None subscription_data ;;
     sid <~ lift (getattr subscription "id") ;;
     log_info "Created subscription: " sid ;;;
     lift (view subscription subscription_fields)).

Definition retrieve_subscription (subscription_id : string)
    : M world (gmap string pyval) :=
  guarded "Error retrieving subscription" (Some subscription_id)
    (subscription <~ call_api "Subscription.retrieve" (Some subscription_id) ∅ ;;
     lift (view subscription subscription_fields)).

Definition cancel_subscription (subscription_id : string) : M world (gmap string pyval) :=
  guarded "Error cancelling subscription" (Some subscription_id)
    (subscription <~ call_api "Subscription.cancel" (Some subscription_id) ∅ ;;
     sid <~ lift (getattr subscription "id") ;;
     log_info "Cancelled subscription: " sid ;;;
     lift (view subscription
             [("id", "id"); ("customer_id", "customer"); ("status", "status");
              ("canceled_at", "canceled_at")])).

Definition list_subscriptions (customer_id : option string) (limit : Z)
    : M world (list (gmap string pyval)) :=
  guarded "Error listing subscriptions" None
    (let params := {[ "limit" := PInt limit ]} in
     let params := set_if "customer" (py_str customer_id) params in
     subscriptions <~ call_api_list "Subscription.list" params ;;
     lift (comprehension (fun s => view s subscription_fields) subscriptions)).

Definition create_checkout_session (customer_id : string)
    (line_items : list (gmap string pyval)) (success_url cancel_url mode : string)
    (metadata : option (gmap string string)) (billing_address_collection : option string)
    (payment_method_types : option (list string)) (allow_promotion_codes : bool)
    (expires_at : option Z) : M world (gmap string pyval) :=
  guarded "Error creating checkout session" None
    (let session_data :=
       {[ "customer" := PStr customer_id;
          "mode" := PStr mode;
          "line_items" := PList (PDict <$> line_items);
          "success_url" := PStr success_url;
          "cancel_url" := PStr cancel_url;
          "allow_promotion_codes" := PBool allow_promotion_codes ]} in
     let session_data := set_if "metadata" (py_strdict metadata) session_data in
     let session_data :=
       set_if "billing_address_collection" (py_str billing_address_collection)
         session_data in
     let session_data :=
       set_if "payment_method_types" (py_strlist payment_method_types) session_data in
     let session_data := set_if "expires_at" (py_int expires_at) session_data in
     session <~ call_api "checkout.Session.create" None session_data ;;
     sid <~ lift (getattr session "id") ;;
     log_info "Created checkout session: " sid ;;;
     lift (view session checkout_fields)).

Definition retrieve_checkout_session (session_id : string) : M world (gmap string pyval) :=
  guarded "Error retrieving checkout session" (Some session_id)
    (session <~ call_api "checkout.Session.retrieve" (Some session_id) ∅ ;;
     lift (view session checkout_fields)).

Definition create_billing_portal_session (customer_id : string)
    (return_url : option string) (flow_data : option (gmap string pyval))
    (flow_type : option string) : M world (gmap string pyval) :=
  guarded "Error creating billing portal session" None
    (let portal_data := {[ "customer" := PStr customer_id ]} in
     let portal_data := set_if "return_url" (py_str return_url) portal_data in
     let portal_data := set_if "flow_data" (py_dict flow_data) portal_data in
     let portal_data := set_if "flow_type" (py_str flow_type) portal_data in
     session <~ call_api "billing_portal.Session.create" None portal_data ;;
     sid <~ lift (getattr session "id") ;;
     log_info "Created billing portal session: " sid ;;;
     lift (view session portal_fields)).

End Ops.

End StripeManagerData.

(** ** handler.py, the data operations *)

Module StripeHandlerData.
Import Remote.

Section Ops.
Context `{StripeAPI}.
Local Open Scope py_scope.

(** Lines 132-140: no [try]; the key is set before the calls. *)
Definition create_subscription_product (self : StripeHandler.state) (name : string)
    (amount : Z) (currency interval : string) : M world (gmap string pyval) :=
  set_api_key (StripeHandler.api_key self) ;;;
  product <~ call_api "Product.create" None {[ "name" := PStr name ]} ;;
  pid <~ lift (getattr product "id") ;;
  price <~ call_api "Price.create" None
    {[ "product" := pid;
       "unit_amount" := PInt amount;
       "currency" := PStr currency;
       "recurring" := PDict {[ "interval" := PStr interval ]} ]} ;;
  pid' <~ lift (getattr product "id") ;;
  prid <~ lift (getattr price "id") ;;
  ret {[ "product_id" := pid'; "price_id" := prid ]}.

Definition deactivate_product (self : StripeHandler.state) (product_id : string)
    : M world unit :=
  set_api_key (StripeHandler.api_key self) ;;;
  call_api "Product.modify" (Some product_id) {[ "active" := PBool false ]} ;;;
  ret tt.

Definition deactivate_price (self : StripeHandler.state) (price_id : string)
    : M world unit :=
  set_api_key (StripeHandler.api_key self) ;;;
  call_api "Price.modify" (Some price_id) {[ "active" := PBool false ]} ;;;
  ret tt.

End Ops.

End StripeHandlerData.

(** ** A test double for the collaborators

    Used where a statement is evaluated on a concrete delivery: a signature
    header is valid when it is ["v1=" ++ secret], and a few payloads decode. *)

Module Stub.

Definition pi_succeeded : gmap string pyval :=
  {[ "id" := PStr "evt_123";
     "type" := PStr "payment_intent.succeeded";
     "data" := PDict {[ "object" := PDict {[ "id" := PStr "pi_1" ]} ]} ]}.

Definition decode (payload : string) : gmap string pyval + exn :=
  if decide (payload = "pi_succeeded") then inl pi_succeeded
  else if decide (payload = "no_id") then inl (delete "id" pi_succeeded)
  else if decide (payload = "no_type") then inl (delete "type" pi_succeeded)
  else if decide (payload = "no_data") then inl (delete "data" pi_succeeded)
  else inr (ValueError "invalid payload").

Definition stub_construct_event (payload sig_header : string) (secret : option string)
    : gmap string pyval + exn :=
  match secret with
  | Some s =>
      if decide (sig_header = "v1=" ++ s) then decode payload
      else inr (SignatureVerificationError "no signatures found matching the expected signature")
  | None => inr (SignatureVerificationError "no secret")
  end.

(** Callbacks by name: ["boom"] raises, ["unregister_all"] empties the
    registry it is given, every other one just returns. *)
Definition stub_call (f : pyfunc) (arg : pyval) (reg : gmap string pyfunc)
    : option exn * gmap string pyfunc :=
  if decide (fn_name f = "boom") then (Some (OtherException "RuntimeError" "boom"), reg)
  else if decide (fn_name f = "unregister_all") then (None, ∅)
  else (None, reg).

#[export] Instance runtime : Runtime :=
  {| construct_event := stub_construct_event; call := stub_call |}.

Definition on_success : pyfunc := mkFunc 1 "on_success".
Definition on_success' : pyfunc := mkFunc 2 "on_success_v2".
Definition on_any : pyfunc := mkFunc 3 "on_any".
Definition boom : pyfunc := mkFunc 4 "boom".

Definition handler0 : StripeHandler.state := StripeHandler.init "sk_test_123" (Some "whsec_123").
Definition manager0 : StripeManager.state := StripeManager.init "sk_test_123".

End Stub.

(** A second test double: the callback named ["interrupt"] raises
    [KeyboardInterrupt], which is no [Exception]; ["boom"] raises one. *)

Module Interrupting.

Definition interrupting_call (f : pyfunc) (arg : pyval) (reg : gmap string pyfunc)
    : option exn * gmap string pyfunc :=
  if decide (fn_name f = "interrupt") then (Some (BaseOnly "KeyboardInterrupt"), reg)
  else if decide (fn_name f = "boom") then (Some (OtherException "RuntimeError" "boom"), reg)
  else (None, reg).

Definition runtime : Runtime :=
  {| construct_event := Stub.stub_construct_event; call := interrupting_call |}.

Definition interrupt : pyfunc := mkFunc 5 "interrupt".

End Interrupting.

(** ** Predicates on runs of the data operations *)

Module RemoteSpec.
Import Remote.

(** [m] makes no call and leaves the key. *)
Definition quiet {A} (m : M world A) : Prop :=
  forall w, calls (m w).2 = calls w /\ stripe_api_key (m w).2 = stripe_api_key w.

(** From [w], [m] makes exactly one call, under the key it found, and leaves
    the key. *)
Definition one_call {A} (m : M world A) (w : world) : Prop :=
  exists c,
    calls (m w).2 = (calls w ++ [c])%list /\
    api_key_used c = stripe_api_key w /\
    stripe_api_key (m w).2 = stripe_api_key w.


End RemoteSpec.

(** What of an optional argument passes an [if arg:] test. *)
Module Given.

Definition given_str (o : option string) : option pyval :=
  match o with
  | Some (String a s) => Some (PStr (String a s))
  | _ => None
  end.

Definition given_int (o : option Z) : option pyval :=
  match o with
  | Some n => if decide (n = 0%Z) then None else Some (PInt n)
  | None => None
  end.

Definition given_strdict (o : option (gmap string string)) : option pyval :=
  match o with
  | Some d => if decide (d = ∅) then None else Some (PDict (PStr <$> d))
  | None => None
  end.

End Given.

(** Test doubles for the remote API. *)
Module StubAPI.
Import Remote.

(** Answers every request with its own keyword arguments, an ["id"] (the
    target, or a new one named after the method) and ["created"]. *)
Definition echo_request (hist : list api_call) (c : api_call) : gmap string pyval + exn :=
  inl (<["id" := PStr (default ("new_" ++ api_method c) (api_target c))]>
         (<["created" := PInt 1700000000]> (api_kwargs c))).

Definition prod (i name : string) (active : bool) : gmap string pyval :=
  {[ "id" := PStr i; "name" := PStr name; "description" := PNone;
     "active" := PBool active; "created" := PInt 1700000000 ]}.

Definition echo_list (hist : list api_call) (c : api_call)
    : list (gmap string pyval) + exn :=
  inl [prod "prod_1" "Basic" true; prod "prod_2" "Pro" false].

Definition echo : StripeAPI := {| request := echo_request; request_list := echo_list |}.


(** Creates products, fails on prices. *)
Definition no_prices : StripeAPI :=
  {| request := fun hist c =>
       if decide (api_method c = "Price.create")
       then inr (OtherException "InvalidRequestError" "Invalid currency")
       else echo_request hist c;
     request_list := echo_list |}.



Definition world0 : world := mkWorld None [] [].

End StubAPI.

(** * Properties *)

(** ** The Python primitives *)

Lemma handlers_get_lookup (reg : gmap string pyfunc) (key : string) :
  handlers_get reg key =
  match reg !! key with Some f => HFunc f | None => HList [] end.
Proof.
  unfold handlers_get, dict_get. rewrite lookup_fmap.
  by destruct (reg !! key).
Qed.

Lemma invoked_log (t : list effect) (lvl : level) (msg : message) :
  invoked (t ++ [Log lvl msg]) = invoked t.
Proof. unfold invoked. rewrite omap_app. simpl. apply app_nil_r. Qed.

Lemma invoked_invoke (t : list effect) (f : pyfunc) (arg : pyval) :
  invoked (t ++ [Invoke f arg]) = (invoked t ++ [(f, arg)])%list.
Proof. unfold invoked. by rewrite omap_app. Qed.

(** Appending to [handlers] succeeds only on two lists: with the values the
    registry can give, only when both lookups missed. *)
Lemma iadd_handlers_get (reg : gmap string pyfunc) (ty : string) :
  match reg !! ty, reg !! "*" with
  | None, None => iadd (handlers_get reg ty) (handlers_get reg "*") = inl (HList [])
  | _, _ => exists msg, iadd (handlers_get reg ty) (handlers_get reg "*") = inr (TypeError msg)
  end.
Proof.
  rewrite !handlers_get_lookup.
  destruct (reg !! ty), (reg !! "*"); simpl; eauto.
Qed.

Lemma lift_run {S A} (r : A + exn) (st : S) : lift r st = (r, st).
Proof. by destruct r. Qed.

(** The distinct error kinds of the entry point. *)
Lemma error_kinds_disjoint (e : exn) :
  isinstance_ValueError e = true -> isinstance_SignatureVerificationError e = false.
Proof. by destruct e. Qed.

(** Opens the existential a case of [resolve_spec] may be wrapped in. *)
Ltac open_spec Hr :=
  lazymatch type of Hr with
  | ex _ => let msg := fresh "msg" in destruct Hr as [msg Hr]
  | _ => idtac
  end.

(** ** handler.py *)

Module HandlerFacts.
Import StripeHandler.

Section WithRuntime.
Context `{Runtime}.

Lemma verify_ok st payload sig_header event ty idv :
  construct_event payload sig_header (webhook_secret st) = inl event ->
  event !! "type" = Some ty ->
  event !! "id" = Some idv ->
  verify payload sig_header st = (inl event, emit (Log INFO (Received ty idv)) st).
Proof.
  intros Hc Ht Hi. unfold verify, try_except, bind, gets, getitem. simpl.
  rewrite Hc. simpl. rewrite Ht, Hi. reflexivity.
Qed.

Lemma verify_raises st payload sig_header e :
  construct_event payload sig_header (webhook_secret st) = inr e ->
  verify payload sig_header st =
  (inr e,
   if isinstance_ValueError e || isinstance_SignatureVerificationError e
   then emit (Log ERROR (VerificationFailed e)) st else st).
Proof.
  intros Hc. unfold verify, try_except, bind, gets. simpl. rewrite Hc. simpl.
  by destruct (isinstance_ValueError e || isinstance_SignatureVerificationError e).
Qed.

Lemma verify_no_type st payload sig_header event :
  construct_event payload sig_header (webhook_secret st) = inl event ->
  event !! "type" = None ->
  verify payload sig_header st = (inr (KeyError "type"), st).
Proof.
  intros Hc Ht. unfold verify, try_except, bind, gets, getitem. simpl.
  rewrite Hc. simpl. rewrite Ht. reflexivity.
Qed.

Lemma verify_no_id st payload sig_header event ty :
  construct_event payload sig_header (webhook_secret st) = inl event ->
  event !! "type" = Some ty ->
  event !! "id" = None ->
  verify payload sig_header st = (inr (KeyError "id"), st).
Proof.
  intros Hc Ht Hi. unfold verify, try_except, bind, gets, getitem. simpl.
  rewrite Hc. simpl. rewrite Ht, Hi. reflexivity.
Qed.

(** Whatever [verify] does, it leaves the registry and the invocations. *)
Lemma verify_frame st payload sig_header :
  _event_handlers (verify payload sig_header st).2 = _event_handlers st /\
  invoked (trace (verify payload sig_header st).2) = invoked (trace st).
Proof.
  destruct (construct_event payload sig_header (webhook_secret st)) as [event|e] eqn:Hc.
  - destruct (event !! "type") as [ty|] eqn:Ht.
    + destruct (event !! "id") as [idv|] eqn:Hi.
      * rewrite (verify_ok _ _ _ _ _ _ Hc Ht Hi). simpl. by rewrite invoked_log.
      * by rewrite (verify_no_id _ _ _ _ _ Hc Ht Hi).
    + by rewrite (verify_no_type _ _ _ _ Hc Ht).
  - rewrite (verify_raises _ _ _ _ Hc).
    destruct (isinstance_ValueError e || isinstance_SignatureVerificationError e);
      simpl; by rewrite ?invoked_log.
Qed.

(** [resolve], by the two lookups. *)
Lemma resolve_spec st ty :
  match _event_handlers st !! ty, _event_handlers st !! "*" with
  | Some _, _ => exists msg, resolve ty st = (inr (TypeError msg), st)
  | None, Some _ =>
      exists msg, resolve ty st =
        (inr (TypeError msg), emit (Log WARNING (NoHandlers ty)) st)
  | None, None =>
      resolve ty st = (inl (HList []), emit (Log WARNING (NoHandlers ty)) st)
  end.
Proof.
  destruct (_event_handlers st !! ty) eqn:Hty, (_event_handlers st !! "*") eqn:Hw;
    unfold resolve, bind, gets; simpl;
    rewrite ?handlers_get_lookup, ?Hty; simpl;
    rewrite ?handlers_get_lookup, ?Hw; simpl; eauto.
Qed.

Lemma resolve_frame st ty :
  _event_handlers (resolve ty st).2 = _event_handlers st /\
  invoked (trace (resolve ty st).2) = invoked (trace st).
Proof.
  pose proof (resolve_spec st ty) as Hr.
  destruct (_event_handlers st !! ty), (_event_handlers st !! "*");
    open_spec Hr; rewrite Hr; simpl; by rewrite ?invoked_log.
Qed.

(** The loop is entered with an empty list or not at all. *)
Lemma resolve_returns_empty st ty hs st' :
  resolve ty st = (inl hs, st') ->
  hs = HList [] /\ _event_handlers st !! ty = None /\ _event_handlers st !! "*" = None.
Proof.
  pose proof (resolve_spec st ty) as Hr. intros Heq.
  destruct (_event_handlers st !! ty), (_event_handlers st !! "*");
    open_spec Hr; rewrite Hr in Heq; by simplify_eq.
Qed.

(** [process_webhook], stage by stage. *)
Lemma process_webhook_unfold st payload sig_header :
  process_webhook payload sig_header st =
  match verify payload sig_header st with
  | (inr e, st1) => (inr e, st1)
  | (inl event, st1) =>
      match Models.StripeEvent_init event with
      | inr e => (inr e, st1)
      | inl event_model =>
          match resolve (Models.type_ event_model) st1 with
          | (inr e, st2) => (inr e, st2)
          | (inl handlers, st2) =>
              match iter handlers with
              | inr e => (inr e, st2)
              | inl items =>
                  match dispatch items event_model st2 with
                  | (inr e, st3) => (inr e, st3)
                  | (inl _, st3) => (inl event_model, st3)
                  end
              end
          end
      end
  end.
Proof.
  unfold process_webhook, bind.
  destruct (verify payload sig_header st) as [[event|e] st1]; [|done].
  destruct (Models.StripeEvent_init event) as [event_model|e]; [|done]. simpl.
  destruct (resolve (Models.type_ event_model) st1) as [[handlers|e] st2]; [|done].
  destruct (iter handlers) as [items|e]; [|done]. simpl.
  by destruct (dispatch items event_model st2) as [[[]|e] st3].
Qed.

(** A delivery is over after [resolve]: either it raised, or it returned the
    empty list and the loop has nothing to do. *)
Lemma process_webhook_after_resolve st payload sig_header event st1 event_model :
  verify payload sig_header st = (inl event, st1) ->
  Models.StripeEvent_init event = inl event_model ->
  process_webhook payload sig_header st =
  match resolve (Models.type_ event_model) st1 with
  | (inr e, st2) => (inr e, st2)
  | (inl _, st2) => (inl event_model, st2)
  end.
Proof.
  intros Hv Hi. rewrite process_webhook_unfold, Hv, Hi.
  destruct (resolve (Models.type_ event_model) st1) as [[handlers|e] st2] eqn:Hr; [|done].
  apply resolve_returns_empty in Hr as [-> _]. reflexivity.
Qed.

(** No delivery changes the registry, and no delivery calls a callback. *)
Lemma process_webhook_frame st payload sig_header :
  _event_handlers (process_webhook payload sig_header st).2 = _event_handlers st /\
  invoked (trace (process_webhook payload sig_header st).2) = invoked (trace st).
Proof.
  pose proof (verify_frame st payload sig_header) as Hv.
  destruct (verify payload sig_header st) as [[event|e] st1] eqn:Hve; simpl in Hv.
  - destruct (Models.StripeEvent_init event) as [event_model|e] eqn:Hi.
    + rewrite (process_webhook_after_resolve _ _ _ _ _ _ Hve Hi).
      pose proof (resolve_frame st1 (Models.type_ event_model)) as Hr.
      destruct (resolve (Models.type_ event_model) st1) as [[hs|e] st2];
        simpl in *; destruct Hr as [-> ->]; exact Hv.
    + by rewrite process_webhook_unfold, Hve, Hi.
  - by rewrite process_webhook_unfold, Hve.
Qed.

(** A verified, well-formed event whose type, or else the wildcard, is
    registered: the append raises. *)
Lemma process_webhook_type_error st payload sig_header event ty idv event_model :
  construct_event payload sig_header (webhook_secret st) = inl event ->
  event !! "type" = Some ty ->
  event !! "id" = Some idv ->
  Models.StripeEvent_init event = inl event_model ->
  is_Some (_event_handlers st !! Models.type_ event_model) \/
    is_Some (_event_handlers st !! "*") ->
  exists msg, (process_webhook payload sig_header st).1 = inr (TypeError msg).
Proof.
  intros Hc Ht Hid Hi Hreg.
  rewrite (process_webhook_after_resolve _ _ _ _ _ _ (verify_ok _ _ _ _ _ _ Hc Ht Hid) Hi).
  set (st1 := emit _ st).
  pose proof (resolve_spec st1 (Models.type_ event_model)) as Hr.
  change (_event_handlers st1) with (_event_handlers st) in Hr.
  destruct (_event_handlers st !! Models.type_ event_model),
           (_event_handlers st !! "*");
    open_spec Hr; rewrite Hr; eauto.
  destruct Hreg as [[? ?]|[? ?]]; discriminate.
Qed.

(** A verified, well-formed event with nothing registered for it. *)
Lemma process_webhook_no_handlers st payload sig_header event ty idv event_model :
  construct_event payload sig_header (webhook_secret st) = inl event ->
  event !! "type" = Some ty ->
  event !! "id" = Some idv ->
  Models.StripeEvent_init event = inl event_model ->
  _event_handlers st !! Models.type_ event_model = None ->
  _event_handlers st !! "*" = None ->
  process_webhook payload sig_header st =
  (inl event_model,
   emit (Log WARNING (NoHandlers (Models.type_ event_model)))
     (emit (Log INFO (Received ty idv)) st)).
Proof.
  intros Hc Ht Hid Hi Hty Hw.
  rewrite (process_webhook_after_resolve _ _ _ _ _ _ (verify_ok _ _ _ _ _ _ Hc Ht Hid) Hi).
  set (st1 := emit _ st).
  pose proof (resolve_spec st1 (Models.type_ event_model)) as Hr.
  change (_event_handlers st1) with (_event_handlers st) in Hr.
  rewrite Hty, Hw in Hr. by rewrite Hr.
Qed.

(** The loop on its own (lines 104-113), over any list: every element is
    called, in order, whatever the earlier ones raised, as long as what they
    raise is an [Exception]. *)
Lemma dispatch_isolates handlers event_model st :
  (forall h arg reg e reg', call h arg reg = (Some e, reg') -> isinstance_Exception e = true) ->
  exists st',
    dispatch handlers event_model st = (inl tt, st') /\
    invoked (trace st') =
      (invoked (trace st) ++ map (fun h => (h, Models.event_object event_model)) handlers)%list.
Proof.
  intros Hexc. revert st.
  induction handlers as [|h handlers IH]; intros st.
  - exists st. split; [done|]. simpl. by rewrite app_nil_r.
  - unfold dispatch in *. simpl. unfold bind at 1, try_except, bind at 1, invoke.
    destruct (call h (Models.event_object event_model) (_event_handlers st))
      as [[e|] reg] eqn:Hcall; simpl.
    + rewrite (Hexc _ _ _ _ _ Hcall). simpl.
      edestruct IH as (st' & -> & Htr). exists st'. split; [done|].
      rewrite Htr. simpl. by rewrite invoked_log, invoked_invoke, <- app_assoc.
    + edestruct IH as (st' & -> & Htr). exists st'. split; [done|].
      rewrite Htr. simpl. by rewrite invoked_log, invoked_invoke, <- app_assoc.
Qed.

(** [resolve] in one equation: the outcome is that of the append. *)
Lemma resolve_eq st ty :
  resolve ty st =
  (iadd (handlers_get (_event_handlers st) ty) (handlers_get (_event_handlers st) "*"),
   if truthy (handlers_get (_event_handlers st) ty) then st
   else emit (Log WARNING (NoHandlers ty)) st).
Proof.
  unfold resolve, bind, gets. simpl.
  destruct (truthy (handlers_get (_event_handlers st) ty)); simpl; by rewrite lift_run.
Qed.

(** The outcome of a verified, well-formed delivery is decided by the append. *)
Lemma process_webhook_resolved st payload sig_header event ty idv event_model :
  construct_event payload sig_header (webhook_secret st) = inl event ->
  event !! "type" = Some ty ->
  event !! "id" = Some idv ->
  Models.StripeEvent_init event = inl event_model ->
  (process_webhook payload sig_header st).1 =
  match iadd (handlers_get (_event_handlers st) (Models.type_ event_model))
             (handlers_get (_event_handlers st) "*") with
  | inl _ => inl event_model
  | inr e => inr e
  end.
Proof.
  intros Hc Ht Hid Hi.
  rewrite (process_webhook_after_resolve _ _ _ _ _ _ (verify_ok _ _ _ _ _ _ Hc Ht Hid) Hi).
  rewrite resolve_eq. simpl.
  by destruct (iadd _ _).
Qed.

End WithRuntime.
End HandlerFacts.

(** ** manager.py *)

Module ManagerFacts.
Import StripeManager.

Section WithRuntime.
Context `{Runtime}.

Lemma payload_verify_ok st payload sig_header webhook_secret event ty idv :
  construct_event payload sig_header (Some webhook_secret) = inl event ->
  event !! "type" = Some ty ->
  event !! "id" = Some idv ->
  verify payload sig_header webhook_secret st = (inl event, emit (Log INFO (Received ty idv)) st).
Proof.
  intros Hc Ht Hi. unfold verify, try_except2, bind, getitem. simpl.
  rewrite Hc. simpl. rewrite Ht, Hi. reflexivity.
Qed.

Lemma payload_verify_raises st payload sig_header webhook_secret e :
  construct_event payload sig_header (Some webhook_secret) = inr e ->
  verify payload sig_header webhook_secret st =
  (inr e,
   if isinstance_ValueError e then emit (Log ERROR (ParsingFailed e)) st
   else if isinstance_SignatureVerificationError e
        then emit (Log ERROR (VerificationFailed e)) st
        else st).
Proof.
  intros Hc. unfold verify, try_except2, bind. simpl. rewrite Hc. simpl.
  by destruct (isinstance_ValueError e), (isinstance_SignatureVerificationError e).
Qed.

Lemma payload_verify_no_type st payload sig_header webhook_secret event :
  construct_event payload sig_header (Some webhook_secret) = inl event ->
  event !! "type" = None ->
  verify payload sig_header webhook_secret st = (inr (KeyError "type"), st).
Proof.
  intros Hc Ht. unfold verify, try_except2, bind, getitem. simpl.
  rewrite Hc. simpl. rewrite Ht. reflexivity.
Qed.

Lemma payload_verify_no_id st payload sig_header webhook_secret event ty :
  construct_event payload sig_header (Some webhook_secret) = inl event ->
  event !! "type" = Some ty ->
  event !! "id" = None ->
  verify payload sig_header webhook_secret st = (inr (KeyError "id"), st).
Proof.
  intros Hc Ht Hi. unfold verify, try_except2, bind, getitem. simpl.
  rewrite Hc. simpl. rewrite Ht, Hi. reflexivity.
Qed.

(** Whatever [verify] does, it leaves the registry and the invocations. *)
Lemma payload_verify_frame st payload sig_header webhook_secret :
  _webhook_handlers (verify payload sig_header webhook_secret st).2 = _webhook_handlers st /\
  invoked (trace (verify payload sig_header webhook_secret st).2) = invoked (trace st).
Proof.
  destruct (construct_event payload sig_header (Some webhook_secret)) as [event|e] eqn:Hc.
  - destruct (event !! "type") as [ty|] eqn:Ht.
    + destruct (event !! "id") as [idv|] eqn:Hi.
      * rewrite (payload_verify_ok _ _ _ _ _ _ _ Hc Ht Hi). simpl. by rewrite invoked_log.
      * by rewrite (payload_verify_no_id _ _ _ _ _ _ Hc Ht Hi).
    + by rewrite (payload_verify_no_type _ _ _ _ _ Hc Ht).
  - rewrite (payload_verify_raises _ _ _ _ _ Hc).
    destruct (isinstance_ValueError e), (isinstance_SignatureVerificationError e);
      simpl; by rewrite ?invoked_log.
Qed.

(** [resolve], by the two lookups. *)
Lemma payload_resolve_spec st ty :
  match _webhook_handlers st !! ty, _webhook_handlers st !! "*" with
  | Some _, _ => exists msg, resolve ty st = (inr (TypeError msg), st)
  | None, Some _ =>
      exists msg, resolve ty st =
        (inr (TypeError msg), emit (Log WARNING (NoHandlers ty)) st)
  | None, None =>
      resolve ty st = (inl (HList []), emit (Log WARNING (NoHandlers ty)) st)
  end.
Proof.
  destruct (_webhook_handlers st !! ty) eqn:Hty, (_webhook_handlers st !! "*") eqn:Hw;
    unfold resolve, bind, gets; simpl;
    rewrite ?handlers_get_lookup, ?Hty; simpl;
    rewrite ?handlers_get_lookup, ?Hw; simpl; eauto.
Qed.

Lemma payload_resolve_frame st ty :
  _webhook_handlers (resolve ty st).2 = _webhook_handlers st /\
  invoked (trace (resolve ty st).2) = invoked (trace st).
Proof.
  pose proof (payload_resolve_spec st ty) as Hr.
  destruct (_webhook_handlers st !! ty), (_webhook_handlers st !! "*");
    open_spec Hr; rewrite Hr; simpl; by rewrite ?invoked_log.
Qed.

(** The loop is entered with an empty list or not at all. *)
Lemma payload_resolve_returns_empty st ty hs st' :
  resolve ty st = (inl hs, st') ->
  hs = HList [] /\ _webhook_handlers st !! ty = None /\ _webhook_handlers st !! "*" = None.
Proof.
  pose proof (payload_resolve_spec st ty) as Hr. intros Heq.
  destruct (_webhook_handlers st !! ty), (_webhook_handlers st !! "*");
    open_spec Hr; rewrite Hr in Heq; by simplify_eq.
Qed.

(** [process_webhook_payload], stage by stage. *)
Lemma process_webhook_payload_unfold st payload sig_header webhook_secret :
  process_webhook_payload payload sig_header webhook_secret st =
  match verify payload sig_header webhook_secret st with
  | (inr e, st1) => (inr e, st1)
  | (inl event, st1) =>
      match Models.StripeEvent_init event with
      | inr e => (inr e, st1)
      | inl event_model =>
          match resolve (Models.type_ event_model) st1 with
          | (inr e, st2) => (inr e, st2)
          | (inl handlers, st2) =>
              match iter handlers with
              | inr e => (inr e, st2)
              | inl items =>
                  match dispatch items event_model st2 with
                  | (inr e, st3) => (inr e, st3)
                  | (inl _, st3) => (inl event_model, st3)
                  end
              end
          end
      end
  end.
Proof.
  unfold process_webhook_payload, bind.
  destruct (verify payload sig_header webhook_secret st) as [[event|e] st1]; [|done].
  destruct (Models.StripeEvent_init event) as [event_model|e]; [|done]. simpl.
  destruct (resolve (Models.type_ event_model) st1) as [[handlers|e] st2]; [|done].
  destruct (iter handlers) as [items|e]; [|done]. simpl.
  by destruct (dispatch items event_model st2) as [[[]|e] st3].
Qed.

(** A delivery is over after [resolve]: either it raised, or it returned the
    empty list and the loop has nothing to do. *)
Lemma process_webhook_payload_after_resolve st payload sig_header webhook_secret event st1 event_model :
  verify payload sig_header webhook_secret st = (inl event, st1) ->
  Models.StripeEvent_init event = inl event_model ->
  process_webhook_payload payload sig_header webhook_secret st =
  match resolve (Models.type_ event_model) st1 with
  | (inr e, st2) => (inr e, st2)
  | (inl _, st2) => (inl event_model, st2)
  end.
Proof.
  intros Hv Hi. rewrite process_webhook_payload_unfold, Hv, Hi.
  destruct (resolve (Models.type_ event_model) st1) as [[handlers|e] st2] eqn:Hr; [|done].
  apply payload_resolve_returns_empty in Hr as [-> _]. reflexivity.
Qed.

(** No delivery changes the registry, and no delivery calls a callback. *)
Lemma process_webhook_payload_frame st payload sig_header webhook_secret :
  _webhook_handlers (process_webhook_payload payload sig_header webhook_secret st).2 = _webhook_handlers st /\
  invoked (trace (process_webhook_payload payload sig_header webhook_secret st).2) = invoked (trace st).
Proof.
  pose proof (payload_verify_frame st payload sig_header webhook_secret) as Hv.
  destruct (verify payload sig_header webhook_secret st) as [[event|e] st1] eqn:Hve; simpl in Hv.
  - destruct (Models.StripeEvent_init event) as [event_model|e] eqn:Hi.
    + rewrite (process_webhook_payload_after_resolve _ _ _ _ _ _ _ Hve Hi).
      pose proof (payload_resolve_frame st1 (Models.type_ event_model)) as Hr.
      destruct (resolve (Models.type_ event_model) st1) as [[hs|e] st2];
        simpl in *; destruct Hr as [-> ->]; exact Hv.
    + by rewrite process_webhook_payload_unfold, Hve, Hi.
  - by rewrite process_webhook_payload_unfold, Hve.
Qed.

(** A verified, well-formed event whose type, or else the wildcard, is
    registered: the append raises. *)
Lemma process_webhook_payload_type_error st payload sig_header webhook_secret event ty idv event_model :
  construct_event payload sig_header (Some webhook_secret) = inl event ->
  event !! "type" = Some ty ->
  event !! "id" = Some idv ->
  Models.StripeEvent_init event = inl event_model ->
  is_Some (_webhook_handlers st !! Models.type_ event_model) \/
    is_Some (_webhook_handlers st !! "*") ->
  exists msg, (process_webhook_payload payload sig_header webhook_secret st).1 = inr (TypeError msg).
Proof.
  intros Hc Ht Hid Hi Hreg.
  rewrite (process_webhook_payload_after_resolve _ _ _ _ _ _ _ (payload_verify_ok _ _ _ _ _ _ _ Hc Ht Hid) Hi).
  set (st1 := emit _ st).
  pose proof (payload_resolve_spec st1 (Models.type_ event_model)) as Hr.
  change (_webhook_handlers st1) with (_webhook_handlers st) in Hr.
  destruct (_webhook_handlers st !! Models.type_ event_model),
           (_webhook_handlers st !! "*");
    open_spec Hr; rewrite Hr; eauto.
  destruct Hreg as [[? ?]|[? ?]]; discriminate.
Qed.

(** A verified, well-formed event with nothing registered for it. *)
Lemma process_webhook_payload_no_handlers st payload sig_header webhook_secret event ty idv event_model :
  construct_event payload sig_header (Some webhook_secret) = inl event ->
  event !! "type" = Some ty ->
  event !! "id" = Some idv ->
  Models.StripeEvent_init event = inl event_model ->
  _webhook_handlers st !! Models.type_ event_model = None ->
  _webhook_handlers st !! "*" = None ->
  process_webhook_payload payload sig_header webhook_secret st =
  (inl event_model,
   emit (Log WARNING (NoHandlers (Models.type_ event_model)))
     (emit (Log INFO (Received ty idv)) st)).
Proof.
  intros Hc Ht Hid Hi Hty Hw.
  rewrite (process_webhook_payload_after_resolve _ _ _ _ _ _ _ (payload_verify_ok _ _ _ _ _ _ _ Hc Ht Hid) Hi).
  set (st1 := emit _ st).
  pose proof (payload_resolve_spec st1 (Models.type_ event_model)) as Hr.
  change (_webhook_handlers st1) with (_webhook_handlers st) in Hr.
  rewrite Hty, Hw in Hr. by rewrite Hr.
Qed.


(** [resolve] in one equation: the outcome is that of the append. *)
Lemma payload_resolve_eq st ty :
  resolve ty st =
  (iadd (handlers_get (_webhook_handlers st) ty) (handlers_get (_webhook_handlers st) "*"),
   if truthy (handlers_get (_webhook_handlers st) ty) then st
   else emit (Log WARNING (NoHandlers ty)) st).
Proof.
  unfold resolve, bind, gets. simpl.
  destruct (truthy (handlers_get (_webhook_handlers st) ty)); simpl; by rewrite lift_run.
Qed.

(** The outcome of a verified, well-formed delivery is decided by the append. *)
Lemma process_webhook_payload_resolved st payload sig_header webhook_secret event ty idv event_model :
  construct_event payload sig_header (Some webhook_secret) = inl event ->
  event !! "type" = Some ty ->
  event !! "id" = Some idv ->
  Models.StripeEvent_init event = inl event_model ->
  (process_webhook_payload payload sig_header webhook_secret st).1 =
  match iadd (handlers_get (_webhook_handlers st) (Models.type_ event_model))
             (handlers_get (_webhook_handlers st) "*") with
  | inl _ => inl event_model
  | inr e => inr e
  end.
Proof.
  intros Hc Ht Hid Hi.
  rewrite (process_webhook_payload_after_resolve _ _ _ _ _ _ _ (payload_verify_ok _ _ _ _ _ _ _ Hc Ht Hid) Hi).
  rewrite payload_resolve_eq. simpl.
  by destruct (iadd _ _).
Qed.

End WithRuntime.
End ManagerFacts.

(** ** models.py *)

Module ModelFacts.
Import Models.

(** What a constructed event was built from. *)
Lemma StripeEvent_init_inv kw event_model :
  StripeEvent_init kw = inl event_model ->
  kw !! "id" = Some (PStr (id event_model)) /\
  kw !! "type" = Some (PStr (type_ event_model)) /\
  kw !! "data" = Some (PDict (data event_model)).
Proof.
  unfold StripeEvent_init, required_str, required_dict, optional_str.
  destruct (kw !! "id") as [[]|]; destruct (kw !! "type") as [[]|];
    destruct (kw !! "data") as [[]|]; destruct (kw !! "api_version") as [[]|];
    intros Heq; simplify_eq; done.
Qed.

(** A required field that is absent is an error, never a default. *)
Lemma StripeEvent_init_required kw name :
  name ∈ ["id"; "type"; "data"] ->
  kw !! name = None ->
  exists fields, StripeEvent_init kw = inr (ValidationError fields) /\ name ∈ fields.
Proof.
  intros Hname Hnone.
  destruct (StripeEvent_init kw) as [event_model|e] eqn:Hi.
  - apply StripeEvent_init_inv in Hi as (Hid & Hty & Hdata).
    set_unfold in Hname. destruct Hname as [->|[->|[->|[]]]]; congruence.
  - unfold StripeEvent_init in Hi.
    assert (e = ValidationError
      (errors_of (required_str kw "id") ++ errors_of (required_str kw "type") ++
       errors_of (required_dict kw "data") ++ errors_of (optional_str kw "api_version")))
      as ->.
    { destruct (required_str kw "id"), (required_str kw "type"),
        (required_dict kw "data"), (optional_str kw "api_version"); congruence. }
    eexists. split; [done|].
    set_unfold in Hname.
    destruct Hname as [->|[->|[->|[]]]];
      unfold required_str at 1 2, required_dict at 1; rewrite ?Hnone;
      set_solver.
Qed.

End ModelFacts.

(** * The claims *)

(** C8. [event_object] of an event is [data["object"]] when [data] has the key
    ["object"], and the empty dict when it has not; an event constructed with
    [data = {"object": {"id": "pi_1"}}] has the event object [{"id": "pi_1"}],
    and one constructed with [data = {}] has [{}]. *)
Theorem C8_event_object (self : Models.StripeEvent) :
  (forall v, Models.data self !! "object" = Some v -> Models.event_object self = v) /\
  (Models.data self !! "object" = None -> Models.event_object self = PDict ∅) /\
  (exists e1,
     Models.StripeEvent_init
       {[ "id" := PStr "evt_123"; "type" := PStr "payment_intent.succeeded";
          "data" := PDict {[ "object" := PDict {[ "id" := PStr "pi_1" ]} ]} ]} = inl e1 /\
     Models.event_object e1 = PDict {[ "id" := PStr "pi_1" ]}) /\
  (exists e2,
     Models.StripeEvent_init
       {[ "id" := PStr "evt_123"; "type" := PStr "payment_intent.succeeded";
          "data" := PDict ∅ ]} = inl e2 /\
     Models.event_object e2 = PDict ∅).
Proof.
  unfold Models.event_object, dict_get. repeat split.
  - by intros v ->.
  - by intros ->.
  - eexists. split; [vm_compute; reflexivity|]. vm_compute. reflexivity.
  - eexists. split; [vm_compute; reflexivity|]. vm_compute. reflexivity.
Qed.

Lemma C8_event_object_witness :
  Models.event_object
    (Models.mkStripeEvent "evt_123" "charge.refunded"
       {[ "object" := PList [PInt 1]; "previous_attributes" := PDict ∅ ]}
       (Some "2024-01-01"))
  = PList [PInt 1] /\
  Models.event_object
    (Models.mkStripeEvent "evt_124" "charge.refunded"
       {[ "previous_attributes" := PDict ∅ ]} None)
  = PDict ∅.
Proof.
  split.
  - apply (proj1 (C8_event_object _)). vm_compute. reflexivity.
  - apply (proj1 (proj2 (C8_event_object _))). vm_compute. reflexivity.
Defined.

(** C9. Removing an event name that is not registered does not raise and
    leaves the registry as it was; removing a registered one does not raise
    and removes exactly that entry.  For [remove_event_handler] and for
    [remove_webhook_handler]. *)
Theorem C9_unregister (hs : StripeHandler.state) (ms : StripeManager.state)
    (event_name : string) :
  (StripeHandler._event_handlers hs !! event_name = None ->
     StripeHandler.remove_event_handler event_name hs = (inl tt, hs)) /\
  (StripeManager._webhook_handlers ms !! event_name = None ->
     (StripeManager.remove_webhook_handler event_name ms).1 = inl tt /\
     StripeManager._webhook_handlers (StripeManager.remove_webhook_handler event_name ms).2
       = StripeManager._webhook_handlers ms) /\
  (is_Some (StripeHandler._event_handlers hs !! event_name) ->
     let r := StripeHandler.remove_event_handler event_name hs in
     r.1 = inl tt /\
     StripeHandler._event_handlers r.2 !! event_name = None /\
     forall other, other <> event_name ->
       StripeHandler._event_handlers r.2 !! other = StripeHandler._event_handlers hs !! other) /\
  (is_Some (StripeManager._webhook_handlers ms !! event_name) ->
     let r := StripeManager.remove_webhook_handler event_name ms in
     r.1 = inl tt /\
     StripeManager._webhook_handlers r.2 !! event_name = None /\
     forall other, other <> event_name ->
       StripeManager._webhook_handlers r.2 !! other = StripeManager._webhook_handlers ms !! other).
Proof.
  unfold StripeHandler.remove_event_handler, StripeManager.remove_webhook_handler,
    bind, gets, dict_contains.
  split; [|split; [|split]].
  - intros ->. reflexivity.
  - intros Hnone. simpl. by rewrite Hnone.
  - intros [f Hf]. rewrite Hf. simpl. split; [done|]. split.
    + apply lookup_delete_eq.
    + intros other Hne. by apply lookup_delete_ne.
  - intros [f Hf]. simpl. rewrite Hf. simpl. split; [done|]. split.
    + apply lookup_delete_eq.
    + intros other Hne. by apply lookup_delete_ne.
Qed.

Lemma C9_unregister_witness :
  let hs := (StripeHandler.add_event_handler "payment_intent.succeeded" Stub.on_success
               Stub.handler0).2 in
  let ms := (StripeManager.add_webhook_handler "payment_intent.succeeded" Stub.on_success
               Stub.manager0).2 in
  StripeHandler.remove_event_handler "nonexistent.event" hs = (inl tt, hs) /\
  StripeManager._webhook_handlers
    (StripeManager.remove_webhook_handler "nonexistent.event" ms).2
    = StripeManager._webhook_handlers ms /\
  StripeHandler._event_handlers
    (StripeHandler.remove_event_handler "payment_intent.succeeded" hs).2
    !! "payment_intent.succeeded" = None /\
  StripeManager._webhook_handlers
    (StripeManager.remove_webhook_handler "payment_intent.succeeded" ms).2
    !! "payment_intent.succeeded" = None.
Proof.
  intros hs ms.
  pose proof (C9_unregister hs ms "nonexistent.event") as (Ha & Hb & _).
  pose proof (C9_unregister hs ms "payment_intent.succeeded") as (_ & _ & Hc & Hd).
  split; [|split; [|split]].
  - apply Ha. vm_compute. reflexivity.
  - apply Hb. vm_compute. reflexivity.
  - apply Hc. vm_compute. eauto.
  - apply Hd. vm_compute. eauto.
Defined.

(** C10. [process_webhook] and [process_webhook_payload] leave the registry
    as they found it, for every registry, payload and signature header, whether
    they return the event or raise; the callbacks could change it, were one
    called. *)
Theorem C10_registry_unchanged `{Runtime} (hs : StripeHandler.state)
    (ms : StripeManager.state) (payload sig_header webhook_secret : string) :
  StripeHandler._event_handlers (StripeHandler.process_webhook payload sig_header hs).2
    = StripeHandler._event_handlers hs /\
  StripeManager._webhook_handlers
    (StripeManager.process_webhook_payload payload sig_header webhook_secret ms).2
    = StripeManager._webhook_handlers ms.
Proof.
  split.
  - apply HandlerFacts.process_webhook_frame.
  - apply ManagerFacts.process_webhook_payload_frame.
Qed.

(** C1. When [construct_event] rejects the signature of the payload under the
    secret, [process_webhook] raises that [SignatureVerificationError], calls no
    callback and returns no event; the same for [process_webhook_payload].
    No exception is both of this kind and of the [ValueError] kind. *)
Theorem C1_signature_mismatch `{Runtime} (hs : StripeHandler.state)
    (ms : StripeManager.state) (payload sig_header secret msg : string) :
  StripeHandler.webhook_secret hs = Some secret ->
  construct_event payload sig_header (Some secret) = inr (SignatureVerificationError msg) ->
  let r := StripeHandler.process_webhook payload sig_header hs in
  let r' := StripeManager.process_webhook_payload payload sig_header secret ms in
  (r.1 = inr (SignatureVerificationError msg) /\
   invoked (StripeHandler.trace r.2) = invoked (StripeHandler.trace hs)) /\
  (r'.1 = inr (SignatureVerificationError msg) /\
   invoked (StripeManager.trace r'.2) = invoked (StripeManager.trace ms)) /\
  isinstance_SignatureVerificationError (SignatureVerificationError msg) = true /\
  isinstance_ValueError (SignatureVerificationError msg) = false /\
  (forall e, isinstance_ValueError e = true ->
             isinstance_SignatureVerificationError e = false).
Proof.
  intros Hsecret Hc r r'. repeat split.
  - subst r. rewrite HandlerFacts.process_webhook_unfold.
    rewrite <- Hsecret in Hc. by rewrite (HandlerFacts.verify_raises _ _ _ _ Hc).
  - apply HandlerFacts.process_webhook_frame.
  - subst r'. rewrite ManagerFacts.process_webhook_payload_unfold.
    by rewrite (ManagerFacts.payload_verify_raises _ _ _ _ _ Hc).
  - apply ManagerFacts.process_webhook_payload_frame.
  - apply error_kinds_disjoint.
Qed.

Lemma C1_signature_mismatch_witness :
  (StripeHandler.process_webhook (H := Stub.runtime) "pi_succeeded" "v1=forged"
     (StripeHandler.add_event_handler "*" Stub.on_any Stub.handler0).2).1
  = inr (SignatureVerificationError "no signatures found matching the expected signature") /\
  (StripeManager.process_webhook_payload (H := Stub.runtime) "pi_succeeded" "v1=forged"
     "whsec_123" Stub.manager0).1
  = inr (SignatureVerificationError "no signatures found matching the expected signature").
Proof.
  pose proof (C1_signature_mismatch (H := Stub.runtime)
    (StripeHandler.add_event_handler "*" Stub.on_any Stub.handler0).2 Stub.manager0
    "pi_succeeded" "v1=forged" "whsec_123"
    "no signatures found matching the expected signature") as Hthm.
  destruct Hthm as ((Hh & _) & (Hm & _) & _); [vm_compute; reflexivity ..|].
  split; [exact Hh | exact Hm].
Defined.

(** C7. A verified, well-formed event, with no callback registered for its
    type and none for ["*"]: the call does not raise, returns the event, and
    calls no callback; what it leaves is two log records, the second the
    warning.  For [process_webhook] and [process_webhook_payload]. *)
Theorem C7_no_handlers `{Runtime} (hs : StripeHandler.state) (ms : StripeManager.state)
    (payload sig_header secret : string) (event : gmap string pyval)
    (event_model : Models.StripeEvent) :
  StripeHandler.webhook_secret hs = Some secret ->
  construct_event payload sig_header (Some secret) = inl event ->
  Models.StripeEvent_init event = inl event_model ->
  StripeHandler._event_handlers hs !! Models.type_ event_model = None ->
  StripeHandler._event_handlers hs !! "*" = None ->
  StripeManager._webhook_handlers ms !! Models.type_ event_model = None ->
  StripeManager._webhook_handlers ms !! "*" = None ->
  let r := StripeHandler.process_webhook payload sig_header hs in
  let r' := StripeManager.process_webhook_payload payload sig_header secret ms in
  (r.1 = inl event_model /\
   invoked (StripeHandler.trace r.2) = invoked (StripeHandler.trace hs) /\
   StripeHandler.trace r.2 =
     (StripeHandler.trace hs ++
      [Log INFO (Received (PStr (Models.type_ event_model)) (PStr (Models.id event_model)));
       Log WARNING (NoHandlers (Models.type_ event_model))])%list) /\
  (r'.1 = inl event_model /\
   invoked (StripeManager.trace r'.2) = invoked (StripeManager.trace ms) /\
   StripeManager.trace r'.2 =
     (StripeManager.trace ms ++
      [Log INFO (Received (PStr (Models.type_ event_model)) (PStr (Models.id event_model)));
       Log WARNING (NoHandlers (Models.type_ event_model))])%list).
Proof.
  intros Hsecret Hc Hi Hty Hw Hty' Hw' r r'.
  destruct (ModelFacts.StripeEvent_init_inv _ _ Hi) as (Hid & Htype & _).
  split.
  - subst r. rewrite <- Hsecret in Hc.
    rewrite (HandlerFacts.process_webhook_no_handlers _ _ _ _ _ _ _ Hc Htype Hid Hi Hty Hw).
    simpl. by rewrite !invoked_log, <- app_assoc.
  - subst r'.
    rewrite (ManagerFacts.process_webhook_payload_no_handlers
               _ _ _ _ _ _ _ _ Hc Htype Hid Hi Hty' Hw').
    simpl. by rewrite !invoked_log, <- app_assoc.
Qed.

Lemma C7_no_handlers_witness :
  exists event_model,
    (StripeHandler.process_webhook (H := Stub.runtime) "pi_succeeded" "v1=whsec_123"
       (StripeHandler.add_event_handler "charge.refunded" Stub.on_success Stub.handler0).2).1
    = inl event_model /\
    Models.id event_model = "evt_123".
Proof.
  eexists. split.
  - refine (proj1 (proj1 (C7_no_handlers (H := Stub.runtime) _ Stub.manager0
      "pi_succeeded" "v1=whsec_123" "whsec_123" Stub.pi_succeeded _ _ _ _ _ _ _ _)));
      vm_compute; reflexivity.
  - reflexivity.
Defined.

(** C2. For a verified, well-formed event: when its type is registered, or is
    not but ["*"] is, the append [handlers += ...] raises a [TypeError], which
    nothing catches, and no callback has been or will be called; so the loop
    is reached only with an empty list.  For [process_webhook] and
    [process_webhook_payload]. *)
Theorem C2_append_raises `{Runtime} (hs : StripeHandler.state) (ms : StripeManager.state)
    (payload sig_header secret : string) (event : gmap string pyval)
    (event_model : Models.StripeEvent) :
  StripeHandler.webhook_secret hs = Some secret ->
  construct_event payload sig_header (Some secret) = inl event ->
  Models.StripeEvent_init event = inl event_model ->
  let ty := Models.type_ event_model in
  let r := StripeHandler.process_webhook payload sig_header hs in
  let r' := StripeManager.process_webhook_payload payload sig_header secret ms in
  (is_Some (StripeHandler._event_handlers hs !! ty) \/
   (StripeHandler._event_handlers hs !! ty = None /\
    is_Some (StripeHandler._event_handlers hs !! "*")) ->
   exists msg,
     iadd (handlers_get (StripeHandler._event_handlers hs) ty)
          (handlers_get (StripeHandler._event_handlers hs) "*") = inr (TypeError msg) /\
     r.1 = inr (TypeError msg) /\
     invoked (StripeHandler.trace r.2) = invoked (StripeHandler.trace hs)) /\
  (is_Some (StripeManager._webhook_handlers ms !! ty) \/
   (StripeManager._webhook_handlers ms !! ty = None /\
    is_Some (StripeManager._webhook_handlers ms !! "*")) ->
   exists msg,
     iadd (handlers_get (StripeManager._webhook_handlers ms) ty)
          (handlers_get (StripeManager._webhook_handlers ms) "*") = inr (TypeError msg) /\
     r'.1 = inr (TypeError msg) /\
     invoked (StripeManager.trace r'.2) = invoked (StripeManager.trace ms)) /\
  (forall st handlers st',
     StripeHandler.resolve ty st = (inl handlers, st') -> iter handlers = inl []) /\
  (forall st handlers st',
     StripeManager.resolve ty st = (inl handlers, st') -> iter handlers = inl []).
Proof.
  intros Hsecret Hc Hi ty r r'.
  destruct (ModelFacts.StripeEvent_init_inv _ _ Hi) as (Hid & Htype & _).
  split; [|split; [|split]].
  - intros Hreg.
    pose proof (iadd_handlers_get (StripeHandler._event_handlers hs) ty) as Happ.
    assert (exists msg,
      iadd (handlers_get (StripeHandler._event_handlers hs) ty)
           (handlers_get (StripeHandler._event_handlers hs) "*") = inr (TypeError msg))
      as [msg Hmsg].
    { destruct Hreg as [[f Hf]|[Hnone [g Hg]]].
      - rewrite Hf in Happ. exact Happ.
      - rewrite Hnone, Hg in Happ. exact Happ. }
    exists msg. split; [exact Hmsg|]. split.
    + subst r. rewrite <- Hsecret in Hc.
      rewrite (HandlerFacts.process_webhook_resolved _ _ _ _ _ _ _ Hc Htype Hid Hi).
      fold ty. by rewrite Hmsg.
    + apply HandlerFacts.process_webhook_frame.
  - intros Hreg.
    pose proof (iadd_handlers_get (StripeManager._webhook_handlers ms) ty) as Happ.
    assert (exists msg,
      iadd (handlers_get (StripeManager._webhook_handlers ms) ty)
           (handlers_get (StripeManager._webhook_handlers ms) "*") = inr (TypeError msg))
      as [msg Hmsg].
    { destruct Hreg as [[f Hf]|[Hnone [g Hg]]].
      - rewrite Hf in Happ. exact Happ.
      - rewrite Hnone, Hg in Happ. exact Happ. }
    exists msg. split; [exact Hmsg|]. split.
    + subst r'.
      rewrite (ManagerFacts.process_webhook_payload_resolved _ _ _ _ _ _ _ _ Hc Htype Hid Hi).
      fold ty. by rewrite Hmsg.
    + apply ManagerFacts.process_webhook_payload_frame.
  - intros st handlers st' Hr.
    by apply HandlerFacts.resolve_returns_empty in Hr as [-> _].
  - intros st handlers st' Hr.
    by apply ManagerFacts.payload_resolve_returns_empty in Hr as [-> _].
Qed.

Lemma C2_append_raises_witness :
  (exists msg,
     (StripeHandler.process_webhook (H := Stub.runtime) "pi_succeeded" "v1=whsec_123"
        (StripeHandler.add_event_handler "payment_intent.succeeded" Stub.on_success
           Stub.handler0).2).1 = inr (TypeError msg)) /\
  (exists msg,
     (StripeManager.process_webhook_payload (H := Stub.runtime) "pi_succeeded"
        "v1=whsec_123" "whsec_123"
        (StripeManager.add_webhook_handler "*" Stub.on_any Stub.manager0).2).1
     = inr (TypeError msg)).
Proof.
  pose proof (C2_append_raises (H := Stub.runtime)
    (StripeHandler.add_event_handler "payment_intent.succeeded" Stub.on_success
       Stub.handler0).2
    (StripeManager.add_webhook_handler "*" Stub.on_any Stub.manager0).2
    "pi_succeeded" "v1=whsec_123" "whsec_123" Stub.pi_succeeded
    (Models.mkStripeEvent "evt_123" "payment_intent.succeeded"
       {[ "object" := PDict {[ "id" := PStr "pi_1" ]} ]} None)
    eq_refl) as Hthm.
  destruct Hthm as (Hh & Hm & _); [vm_compute; reflexivity .. |].
  split.
  - destruct Hh as (msg & _ & Hr & _).
    + left. vm_compute. eauto.
    + exists msg. exact Hr.
  - destruct Hm as (msg & _ & Hr & _).
    + right. split; vm_compute; eauto.
    + exists msg. exact Hr.
Defined.

(** C3 (the code departs from it).  After [add_event_handler] for
    ["payment_intent.succeeded"], a verified, well-formed event of that type
    does not reach the callback: [process_webhook] raises the [TypeError] of
    the append, nothing is called and no event is returned.  The registry part
    holds: a second registration under the name replaces the first. *)
Theorem C3_registered_callback_not_called `{Runtime} (hs : StripeHandler.state)
    (f f' : pyfunc) (payload sig_header secret : string) (event : gmap string pyval)
    (event_model : Models.StripeEvent) :
  StripeHandler.webhook_secret hs = Some secret ->
  construct_event payload sig_header (Some secret) = inl event ->
  Models.StripeEvent_init event = inl event_model ->
  Models.type_ event_model = "payment_intent.succeeded" ->
  let hs1 := (StripeHandler.add_event_handler "payment_intent.succeeded" f hs).2 in
  let hs2 := (StripeHandler.add_event_handler "payment_intent.succeeded" f' hs1).2 in
  let r := StripeHandler.process_webhook payload sig_header hs1 in
  (exists msg, r.1 = inr (TypeError msg)) /\
  invoked (StripeHandler.trace r.2) = invoked (StripeHandler.trace hs1) /\
  StripeHandler._event_handlers hs2 !! "payment_intent.succeeded" = Some f' /\
  StripeHandler._event_handlers hs2
    = <["payment_intent.succeeded" := f']> (StripeHandler._event_handlers hs).
Proof.
  intros Hsecret Hc Hi Hty hs1 hs2 r.
  destruct (ModelFacts.StripeEvent_init_inv _ _ Hi) as (Hid & Htype & _).
  split; [|split; [|split]].
  - subst r.
    assert (construct_event payload sig_header (StripeHandler.webhook_secret hs1)
            = inl event) as Hc1 by (simpl; by rewrite Hsecret).
    apply (HandlerFacts.process_webhook_type_error _ _ _ _ _ _ _ Hc1 Htype Hid Hi).
    left. rewrite Hty. simpl. rewrite lookup_insert_eq. eauto.
  - apply HandlerFacts.process_webhook_frame.
  - simpl. apply lookup_insert_eq.
  - simpl. apply insert_insert_eq.
Qed.

Lemma C3_registered_callback_not_called_witness :
  exists msg,
    (StripeHandler.process_webhook (H := Stub.runtime) "pi_succeeded" "v1=whsec_123"
       (StripeHandler.add_event_handler "payment_intent.succeeded" Stub.on_success
          Stub.handler0).2).1 = inr (TypeError msg).
Proof.
  refine (proj1 (C3_registered_callback_not_called (H := Stub.runtime) Stub.handler0
    Stub.on_success Stub.on_success' "pi_succeeded" "v1=whsec_123" "whsec_123"
    Stub.pi_succeeded
    (Models.mkStripeEvent "evt_123" "payment_intent.succeeded"
       {[ "object" := PDict {[ "id" := PStr "pi_1" ]} ]} None) _ _ _ _));
    vm_compute; reflexivity.
Defined.

(** C4 (the code departs from it).  With a callback registered under ["*"],
    a verified, well-formed event does not reach it, whether or not its own
    type is registered too: [process_webhook] raises the [TypeError] of the
    append and nothing is called. *)
Theorem C4_wildcard_not_called `{Runtime} (hs : StripeHandler.state) (g : pyfunc)
    (payload sig_header secret : string) (event : gmap string pyval)
    (event_model : Models.StripeEvent) :
  StripeHandler.webhook_secret hs = Some secret ->
  construct_event payload sig_header (Some secret) = inl event ->
  Models.StripeEvent_init event = inl event_model ->
  StripeHandler._event_handlers hs !! "*" = Some g ->
  let r := StripeHandler.process_webhook payload sig_header hs in
  (exists msg, r.1 = inr (TypeError msg)) /\
  invoked (StripeHandler.trace r.2) = invoked (StripeHandler.trace hs).
Proof.
  intros Hsecret Hc Hi Hg r.
  destruct (ModelFacts.StripeEvent_init_inv _ _ Hi) as (Hid & Htype & _).
  split.
  - rewrite <- Hsecret in Hc.
    apply (HandlerFacts.process_webhook_type_error _ _ _ _ _ _ _ Hc Htype Hid Hi).
    right. eauto.
  - apply HandlerFacts.process_webhook_frame.
Qed.

Lemma C4_wildcard_not_called_witness :
  exists msg,
    (StripeHandler.process_webhook (H := Stub.runtime) "pi_succeeded" "v1=whsec_123"
       (StripeHandler.add_event_handler "*" Stub.on_any Stub.handler0).2).1
    = inr (TypeError msg).
Proof.
  refine (proj1 (C4_wildcard_not_called (H := Stub.runtime) _ Stub.on_any
    "pi_succeeded" "v1=whsec_123" "whsec_123" Stub.pi_succeeded
    (Models.mkStripeEvent "evt_123" "payment_intent.succeeded"
       {[ "object" := PDict {[ "id" := PStr "pi_1" ]} ]} None) _ _ _ _));
    vm_compute; reflexivity.
Defined.

(** C5 (the code departs from it).  A callback that raises, registered for
    the type of a verified, well-formed event, and a second one under ["*"]:
    the loop, run on the two, would call both and complete; but
    [process_webhook] raises the [TypeError] of the append before the loop,
    calls neither and returns no event. *)
Theorem C5_second_callback_not_called `{Runtime} (hs : StripeHandler.state)
    (f g : pyfunc) (payload sig_header secret : string) (event : gmap string pyval)
    (event_model : Models.StripeEvent) (e : exn) (reg' : gmap string pyfunc) :
  (forall h arg reg e0 reg0,
     call h arg reg = (Some e0, reg0) -> isinstance_Exception e0 = true) ->
  StripeHandler.webhook_secret hs = Some secret ->
  construct_event payload sig_header (Some secret) = inl event ->
  Models.StripeEvent_init event = inl event_model ->
  StripeHandler._event_handlers hs !! Models.type_ event_model = Some f ->
  StripeHandler._event_handlers hs !! "*" = Some g ->
  call f (Models.event_object event_model) (StripeHandler._event_handlers hs)
    = (Some e, reg') ->
  let r := StripeHandler.process_webhook payload sig_header hs in
  (exists msg, r.1 = inr (TypeError msg)) /\
  r.1 <> inl event_model /\
  invoked (StripeHandler.trace r.2) = invoked (StripeHandler.trace hs) /\
  (exists st',
     StripeHandler.dispatch [f; g] event_model hs = (inl tt, st') /\
     invoked (StripeHandler.trace st') =
       (invoked (StripeHandler.trace hs) ++
        [(f, Models.event_object event_model); (g, Models.event_object event_model)])%list).
Proof.
  intros Hexc Hsecret Hc Hi Hf Hg Hcall r.
  destruct (ModelFacts.StripeEvent_init_inv _ _ Hi) as (Hid & Htype & _).
  rewrite <- Hsecret in Hc.
  destruct (HandlerFacts.process_webhook_type_error hs _ _ _ _ _ _ Hc Htype Hid Hi)
    as [msg Hmsg]; [left; eauto|].
  split; [by exists msg|]. split; [|split].
  - subst r. rewrite Hmsg. discriminate.
  - apply HandlerFacts.process_webhook_frame.
  - apply (HandlerFacts.dispatch_isolates [f; g] event_model hs Hexc).
Qed.

Lemma C5_second_callback_not_called_witness :
  exists msg,
    (StripeHandler.process_webhook (H := Stub.runtime) "pi_succeeded" "v1=whsec_123"
       (StripeHandler.add_event_handler "*" Stub.on_any
          (StripeHandler.add_event_handler "payment_intent.succeeded" Stub.boom
             Stub.handler0).2).2).1
    = inr (TypeError msg).
Proof.
  refine (proj1 (C5_second_callback_not_called (H := Stub.runtime) _ Stub.boom Stub.on_any
    "pi_succeeded" "v1=whsec_123" "whsec_123" Stub.pi_succeeded
    (Models.mkStripeEvent "evt_123" "payment_intent.succeeded"
       {[ "object" := PDict {[ "id" := PStr "pi_1" ]} ]} None)
    (OtherException "RuntimeError" "boom") _ _ _ _ _ _ _ _)).
  - intros h arg reg e0 reg0. simpl. unfold Stub.stub_call.
    destruct (decide (fn_name h = "boom")); [by intros [= <- _]|].
    destruct (decide (fn_name h = "unregister_all")); discriminate.
  - vm_compute. reflexivity.
  - vm_compute. reflexivity.
  - vm_compute. reflexivity.
  - vm_compute. reflexivity.
  - vm_compute. reflexivity.
  - vm_compute. reflexivity.
Defined.

(** C6 (the code departs from it).  A verified payload whose decoded event
    lacks ["type"], or has it and lacks ["id"], makes [process_webhook] raise
    a [KeyError], from the first log record, which is not of the [ValueError]
    kind; only one that has both and lacks ["data"] raises the
    [ValidationError], which is.  No callback is called in any of the three. *)
Theorem C6_missing_field `{Runtime} (hs : StripeHandler.state)
    (payload sig_header secret : string) (event : gmap string pyval) :
  StripeHandler.webhook_secret hs = Some secret ->
  construct_event payload sig_header (Some secret) = inl event ->
  let r := StripeHandler.process_webhook payload sig_header hs in
  (event !! "type" = None ->
     r.1 = inr (KeyError "type") /\ isinstance_ValueError (KeyError "type") = false) /\
  (is_Some (event !! "type") -> event !! "id" = None ->
     r.1 = inr (KeyError "id") /\ isinstance_ValueError (KeyError "id") = false) /\
  (is_Some (event !! "type") -> is_Some (event !! "id") -> event !! "data" = None ->
     exists fields,
       r.1 = inr (ValidationError fields) /\ "data" ∈ fields /\
       isinstance_ValueError (ValidationError fields) = true) /\
  invoked (StripeHandler.trace r.2) = invoked (StripeHandler.trace hs).
Proof.
  intros Hsecret Hc r. rewrite <- Hsecret in Hc. subst r.
  split; [|split; [|split]].
  - intros Ht. split; [|done].
    by rewrite HandlerFacts.process_webhook_unfold,
      (HandlerFacts.verify_no_type _ _ _ _ Hc Ht).
  - intros [ty Ht] Hid. split; [|done].
    by rewrite HandlerFacts.process_webhook_unfold,
      (HandlerFacts.verify_no_id _ _ _ _ _ Hc Ht Hid).
  - intros [ty Ht] [idv Hid] Hdata.
    destruct (ModelFacts.StripeEvent_init_required event "data") as (fields & Hi & Hin);
      [set_solver|done|].
    exists fields. split; [|done].
    by rewrite HandlerFacts.process_webhook_unfold,
      (HandlerFacts.verify_ok _ _ _ _ _ _ Hc Ht Hid), Hi.
  - apply HandlerFacts.process_webhook_frame.
Qed.

Lemma C6_missing_field_witness :
  (StripeHandler.process_webhook (H := Stub.runtime) "no_type" "v1=whsec_123"
     Stub.handler0).1 = inr (KeyError "type") /\
  (StripeHandler.process_webhook (H := Stub.runtime) "no_id" "v1=whsec_123"
     Stub.handler0).1 = inr (KeyError "id") /\
  (exists fields,
     (StripeHandler.process_webhook (H := Stub.runtime) "no_data" "v1=whsec_123"
        Stub.handler0).1 = inr (ValidationError fields)).
Proof.
  split; [|split].
  - refine (proj1 (proj1 (C6_missing_field (H := Stub.runtime) Stub.handler0
      "no_type" "v1=whsec_123" "whsec_123" (delete "type" Stub.pi_succeeded) _ _) _));
      vm_compute; reflexivity.
  - refine (proj1 (proj1 (proj2 (C6_missing_field (H := Stub.runtime) Stub.handler0
      "no_id" "v1=whsec_123" "whsec_123" (delete "id" Stub.pi_succeeded) _ _)) _ _));
      vm_compute; eauto.
  - destruct (proj1 (proj2 (proj2 (C6_missing_field (H := Stub.runtime) Stub.handler0
      "no_data" "v1=whsec_123" "whsec_123" (delete "data" Stub.pi_succeeded)
      eq_refl eq_refl)))) as (fields & Hr & _); [vm_compute; eauto ..|].
    exists fields. exact Hr.
Defined.

(** * Further properties *)

(** ** The registry *)

(** X1. Registering a callback under a name that is free and removing it
    again gives back the registry: for the handler the very state, for the
    manager the registry, with the two log records of the two calls. *)
Theorem register_then_unregister (hs : StripeHandler.state) (ms : StripeManager.state)
    (event_name : string) (f : pyfunc) :
  StripeHandler._event_handlers hs !! event_name = None ->
  StripeManager._webhook_handlers ms !! event_name = None ->
  StripeHandler.remove_event_handler event_name
    (StripeHandler.add_event_handler event_name f hs).2 = (inl tt, hs) /\
  (let r := StripeManager.remove_webhook_handler event_name
              (StripeManager.add_webhook_handler event_name f ms).2 in
   r.1 = inl tt /\
   StripeManager._webhook_handlers r.2 = StripeManager._webhook_handlers ms /\
   StripeManager.trace r.2 =
     (StripeManager.trace ms ++
      [Log INFO (AddedHandler event_name); Log INFO (RemovedHandler event_name)])%list).
Proof.
  intros Hh Hm. split.
  - unfold StripeHandler.remove_event_handler, StripeHandler.add_event_handler,
      dict_contains. simpl. rewrite lookup_insert_eq. f_equal.
    unfold StripeHandler.set_handlers. simpl.
    rewrite delete_insert_eq, delete_id by done. by destruct hs.
  - unfold StripeManager.remove_webhook_handler, StripeManager.add_webhook_handler,
      bind, gets, dict_contains. simpl. rewrite lookup_insert_eq. simpl.
    split; [done|]. split.
    + by rewrite delete_insert_eq, delete_id.
    + by rewrite <- app_assoc.
Qed.

Lemma register_then_unregister_witness :
  StripeHandler.remove_event_handler "charge.refunded"
    (StripeHandler.add_event_handler "charge.refunded" Stub.on_success
       (StripeHandler.add_event_handler "*" Stub.on_any Stub.handler0).2).2
  = (inl tt, (StripeHandler.add_event_handler "*" Stub.on_any Stub.handler0).2).
Proof.
  apply (proj1 (register_then_unregister
    (StripeHandler.add_event_handler "*" Stub.on_any Stub.handler0).2 Stub.manager0
    "charge.refunded" Stub.on_success eq_refl eq_refl)).
Defined.

(** X2. Removing a name twice is removing it once, whether or not it was
    registered: the second call finds nothing and changes nothing. *)
Theorem unregister_twice (hs : StripeHandler.state) (ms : StripeManager.state)
    (event_name : string) :
  StripeHandler.remove_event_handler event_name
    (StripeHandler.remove_event_handler event_name hs).2
  = (inl tt, (StripeHandler.remove_event_handler event_name hs).2) /\
  (let ms1 := (StripeManager.remove_webhook_handler event_name ms).2 in
   let r := StripeManager.remove_webhook_handler event_name ms1 in
   r.1 = inl tt /\
   StripeManager._webhook_handlers r.2 = StripeManager._webhook_handlers ms1 /\
   StripeManager.trace r.2 =
     (StripeManager.trace ms1 ++ [Log WARNING (NoHandlerFound event_name)])%list).
Proof.
  split.
  - unfold StripeHandler.remove_event_handler, dict_contains.
    destruct (StripeHandler._event_handlers hs !! event_name) eqn:Hk; simpl.
    + by rewrite lookup_delete_eq.
    + by rewrite Hk.
  - unfold StripeManager.remove_webhook_handler, bind, gets, dict_contains. simpl.
    destruct (StripeManager._webhook_handlers ms !! event_name) eqn:Hk; simpl.
    + by rewrite lookup_delete_eq.
    + by rewrite Hk.
Qed.

(** ** The entry points *)

Lemma handler_verify_inv `{Runtime} st payload sig_header event st1 :
  StripeHandler.verify payload sig_header st = (inl event, st1) ->
  construct_event payload sig_header (StripeHandler.webhook_secret st) = inl event /\
  exists ty idv,
    event !! "type" = Some ty /\ event !! "id" = Some idv /\
    st1 = StripeHandler.emit (Log INFO (Received ty idv)) st.
Proof.
  intros Hv.
  destruct (construct_event payload sig_header (StripeHandler.webhook_secret st))
    as [event'|e] eqn:Hc.
  - destruct (event' !! "type") as [ty|] eqn:Ht.
    + destruct (event' !! "id") as [idv|] eqn:Hi.
      * rewrite (HandlerFacts.verify_ok _ _ _ _ _ _ Hc Ht Hi) in Hv.
        simplify_eq. eauto 6.
      * by rewrite (HandlerFacts.verify_no_id _ _ _ _ _ Hc Ht Hi) in Hv.
    + by rewrite (HandlerFacts.verify_no_type _ _ _ _ Hc Ht) in Hv.
  - by rewrite (HandlerFacts.verify_raises _ _ _ _ Hc) in Hv.
Qed.

Lemma manager_verify_inv `{Runtime} st payload sig_header secret event st1 :
  StripeManager.verify payload sig_header secret st = (inl event, st1) ->
  construct_event payload sig_header (Some secret) = inl event /\
  exists ty idv,
    event !! "type" = Some ty /\ event !! "id" = Some idv /\
    st1 = StripeManager.emit (Log INFO (Received ty idv)) st.
Proof.
  intros Hv.
  destruct (construct_event payload sig_header (Some secret)) as [event'|e] eqn:Hc.
  - destruct (event' !! "type") as [ty|] eqn:Ht.
    + destruct (event' !! "id") as [idv|] eqn:Hi.
      * rewrite (ManagerFacts.payload_verify_ok _ _ _ _ _ _ _ Hc Ht Hi) in Hv.
        simplify_eq. eauto 6.
      * by rewrite (ManagerFacts.payload_verify_no_id _ _ _ _ _ _ Hc Ht Hi) in Hv.
    + by rewrite (ManagerFacts.payload_verify_no_type _ _ _ _ _ Hc Ht) in Hv.
  - by rewrite (ManagerFacts.payload_verify_raises _ _ _ _ _ Hc) in Hv.
Qed.

(** X3. [process_webhook] returns an event exactly when the library accepts
    the payload, the decoded event validates as that event, and neither its
    type nor ["*"] is registered; every other call raises. *)
Theorem process_webhook_returns_iff `{Runtime} (hs : StripeHandler.state)
    (payload sig_header : string) (event_model : Models.StripeEvent) :
  (StripeHandler.process_webhook payload sig_header hs).1 = inl event_model <->
  exists event,
    construct_event payload sig_header (StripeHandler.webhook_secret hs) = inl event /\
    Models.StripeEvent_init event = inl event_model /\
    StripeHandler._event_handlers hs !! Models.type_ event_model = None /\
    StripeHandler._event_handlers hs !! "*" = None.
Proof.
  split.
  - rewrite HandlerFacts.process_webhook_unfold.
    destruct (StripeHandler.verify payload sig_header hs) as [[event|e] st1] eqn:Hv;
      [|discriminate].
    apply handler_verify_inv in Hv as (Hc & ty & idv & Ht & Hid & ->).
    destruct (Models.StripeEvent_init event) as [em|e] eqn:Hi; [|discriminate].
    destruct (StripeHandler.resolve (Models.type_ em) _) as [[hv|e] st2] eqn:Hr;
      [|discriminate].
    apply HandlerFacts.resolve_returns_empty in Hr as (-> & Hty & Hw). simpl.
    intros [= <-]. exists event. eauto.
  - intros (event & Hc & Hi & Hty & Hw).
    destruct (ModelFacts.StripeEvent_init_inv _ _ Hi) as (Hid & Htype & _).
    by rewrite (HandlerFacts.process_webhook_no_handlers _ _ _ _ _ _ _ Hc Htype Hid Hi Hty Hw).
Qed.

Lemma process_webhook_returns_iff_witness :
  exists event_model,
    (StripeHandler.process_webhook (H := Stub.runtime) "pi_succeeded" "v1=whsec_123"
       Stub.handler0).1 = inl event_model.
Proof.
  eexists.
  apply (proj2 (process_webhook_returns_iff (H := Stub.runtime) Stub.handler0
    "pi_succeeded" "v1=whsec_123" _)).
  exists Stub.pi_succeeded. repeat split; vm_compute; reflexivity.
Defined.

(** X4. An exception of [construct_event] leaves [process_webhook] as it is,
    whatever its class.  The handler logs one ERROR record, the same for a
    [ValueError] as for a signature error, and none for another class; the
    manager tells the two apart in its record. *)
Theorem construct_event_error_propagates `{Runtime} (hs : StripeHandler.state)
    (ms : StripeManager.state) (payload sig_header secret : string) (e : exn) :
  StripeHandler.webhook_secret hs = Some secret ->
  construct_event payload sig_header (Some secret) = inr e ->
  StripeHandler.process_webhook payload sig_header hs =
    (inr e,
     if isinstance_ValueError e || isinstance_SignatureVerificationError e
     then StripeHandler.emit (Log ERROR (VerificationFailed e)) hs else hs) /\
  StripeManager.process_webhook_payload payload sig_header secret ms =
    (inr e,
     if isinstance_ValueError e then StripeManager.emit (Log ERROR (ParsingFailed e)) ms
     else if isinstance_SignatureVerificationError e
          then StripeManager.emit (Log ERROR (VerificationFailed e)) ms
          else ms).
Proof.
  intros Hsecret Hc. split.
  - rewrite <- Hsecret in Hc.
    by rewrite HandlerFacts.process_webhook_unfold, (HandlerFacts.verify_raises _ _ _ _ Hc).
  - by rewrite ManagerFacts.process_webhook_payload_unfold,
      (ManagerFacts.payload_verify_raises _ _ _ _ _ Hc).
Qed.

Lemma construct_event_error_propagates_witness :
  (StripeHandler.process_webhook (H := Stub.runtime) "not json" "v1=whsec_123"
     Stub.handler0).1 = inr (ValueError "invalid payload") /\
  StripeManager.trace
    (StripeManager.process_webhook_payload (H := Stub.runtime) "not json" "v1=whsec_123"
       "whsec_123" Stub.manager0).2
  = [Log ERROR (ParsingFailed (ValueError "invalid payload"))].
Proof.
  destruct (construct_event_error_propagates (H := Stub.runtime) Stub.handler0
    Stub.manager0 "not json" "v1=whsec_123" "whsec_123" (ValueError "invalid payload"))
    as [Hh Hm]; [vm_compute; reflexivity ..|].
  split.
  - by rewrite Hh.
  - by rewrite Hm.
Defined.

(** X5. The two entry points agree: a handler configured with a secret and a
    manager given the same secret, with equal registries, return the same
    event or raise the same exception on every payload and header. *)
Theorem handler_manager_agree `{Runtime} (hs : StripeHandler.state)
    (ms : StripeManager.state) (payload sig_header secret : string) :
  StripeHandler.webhook_secret hs = Some secret ->
  StripeHandler._event_handlers hs = StripeManager._webhook_handlers ms ->
  (StripeHandler.process_webhook payload sig_header hs).1 =
  (StripeManager.process_webhook_payload payload sig_header secret ms).1.
Proof.
  intros Hsecret Hreg.
  destruct (construct_event payload sig_header (Some secret)) as [event|e] eqn:Hc.
  - assert (construct_event payload sig_header (StripeHandler.webhook_secret hs)
            = inl event) as Hc' by by rewrite Hsecret.
    destruct (event !! "type") as [ty|] eqn:Ht.
    + destruct (event !! "id") as [idv|] eqn:Hid.
      * destruct (Models.StripeEvent_init event) as [em|e] eqn:Hi.
        -- rewrite (HandlerFacts.process_webhook_resolved _ _ _ _ _ _ _ Hc' Ht Hid Hi),
             (ManagerFacts.process_webhook_payload_resolved _ _ _ _ _ _ _ _ Hc Ht Hid Hi).
           by rewrite Hreg.
        -- rewrite HandlerFacts.process_webhook_unfold,
             (HandlerFacts.verify_ok _ _ _ _ _ _ Hc' Ht Hid), Hi.
           by rewrite ManagerFacts.process_webhook_payload_unfold,
             (ManagerFacts.payload_verify_ok _ _ _ _ _ _ _ Hc Ht Hid), Hi.
      * rewrite HandlerFacts.process_webhook_unfold,
          (HandlerFacts.verify_no_id _ _ _ _ _ Hc' Ht Hid).
        by rewrite ManagerFacts.process_webhook_payload_unfold,
          (ManagerFacts.payload_verify_no_id _ _ _ _ _ _ Hc Ht Hid).
    + rewrite HandlerFacts.process_webhook_unfold,
        (HandlerFacts.verify_no_type _ _ _ _ Hc' Ht).
      by rewrite ManagerFacts.process_webhook_payload_unfold,
        (ManagerFacts.payload_verify_no_type _ _ _ _ _ Hc Ht).
  - assert (construct_event payload sig_header (StripeHandler.webhook_secret hs)
            = inr e) as Hc' by by rewrite Hsecret.
    rewrite HandlerFacts.process_webhook_unfold, (HandlerFacts.verify_raises _ _ _ _ Hc').
    by rewrite ManagerFacts.process_webhook_payload_unfold,
      (ManagerFacts.payload_verify_raises _ _ _ _ _ Hc).
Qed.

Lemma handler_manager_agree_witness :
  (StripeHandler.process_webhook (H := Stub.runtime) "no_data" "v1=whsec_123"
     (StripeHandler.add_event_handler "*" Stub.on_any Stub.handler0).2).1 =
  (StripeManager.process_webhook_payload (H := Stub.runtime) "no_data" "v1=whsec_123"
     "whsec_123" (StripeManager.add_webhook_handler "*" Stub.on_any Stub.manager0).2).1.
Proof.
  apply (handler_manager_agree (H := Stub.runtime)); vm_compute; reflexivity.
Defined.



(** X7. [except Exception] does not catch everything: when a callback raises
    an exception that is no [Exception], such as [KeyboardInterrupt], the loop
    ends there: the exception leaves it, nothing is logged, and the callbacks
    after it are not called. *)
Theorem dispatch_stops_at_base_exception `{Runtime} (hs : StripeHandler.state)
    (h : pyfunc) (rest : list pyfunc) (event_model : Models.StripeEvent)
    (e : exn) (reg' : gmap string pyfunc) :
  call h (Models.event_object event_model) (StripeHandler._event_handlers hs)
    = (Some e, reg') ->
  isinstance_Exception e = false ->
  StripeHandler.dispatch (h :: rest) event_model hs =
    (inr e,
     StripeHandler.set_handlers reg'
       (StripeHandler.emit (Invoke h (Models.event_object event_model)) hs)).
Proof.
  intros Hcall He.
  unfold StripeHandler.dispatch. simpl.
  unfold bind at 1, try_except, bind at 1, StripeHandler.invoke.
  rewrite Hcall. simpl. by rewrite He.
Qed.

Lemma dispatch_stops_at_base_exception_witness :
  (StripeHandler.dispatch (H := Interrupting.runtime)
     [Interrupting.interrupt; Stub.on_any]
     (Models.mkStripeEvent "evt_1" "charge.refunded" ∅ None) Stub.handler0).1
  = inr (BaseOnly "KeyboardInterrupt").
Proof.
  rewrite (dispatch_stops_at_base_exception (H := Interrupting.runtime) Stub.handler0
    Interrupting.interrupt [Stub.on_any] _ (BaseOnly "KeyboardInterrupt") ∅);
    reflexivity.
Defined.

(** X8. Validation comes before the registry is looked at: a verified event
    that has ["type"] and ["id"] but does not validate makes [process_webhook]
    raise the validation error, after the INFO record, whatever is
    registered. *)
Theorem invalid_event_raises_before_dispatch `{Runtime} (hs : StripeHandler.state)
    (payload sig_header secret : string) (event : gmap string pyval) (ty idv : pyval)
    (e : exn) :
  StripeHandler.webhook_secret hs = Some secret ->
  construct_event payload sig_header (Some secret) = inl event ->
  event !! "type" = Some ty ->
  event !! "id" = Some idv ->
  Models.StripeEvent_init event = inr e ->
  StripeHandler.process_webhook payload sig_header hs =
    (inr e, StripeHandler.emit (Log INFO (Received ty idv)) hs).
Proof.
  intros Hsecret Hc Ht Hid Hi. rewrite <- Hsecret in Hc.
  by rewrite HandlerFacts.process_webhook_unfold,
    (HandlerFacts.verify_ok _ _ _ _ _ _ Hc Ht Hid), Hi.
Qed.

Lemma invalid_event_raises_before_dispatch_witness :
  (StripeHandler.process_webhook (H := Stub.runtime) "no_data" "v1=whsec_123"
     (StripeHandler.add_event_handler "payment_intent.succeeded" Stub.on_success
        Stub.handler0).2).1
  = inr (ValidationError ["data"]).
Proof.
  rewrite (invalid_event_raises_before_dispatch (H := Stub.runtime) _
    "no_data" "v1=whsec_123" "whsec_123" (delete "data" Stub.pi_succeeded)
    (PStr "payment_intent.succeeded") (PStr "evt_123") (ValidationError ["data"]));
    vm_compute; reflexivity.
Defined.

(** ** The event model *)

(** X9. The constructor of [StripeEvent] succeeds exactly on keyword
    arguments whose ["id"] and ["type"] are strings and whose ["data"] is a
    dict, with ["api_version"] absent, [None] or a string; the fields of the
    event are those values, [api_version] being [None] in the first two
    cases. *)
Theorem StripeEvent_init_iff (kw : gmap string pyval) (event_model : Models.StripeEvent) :
  Models.StripeEvent_init kw = inl event_model <->
  kw !! "id" = Some (PStr (Models.id event_model)) /\
  kw !! "type" = Some (PStr (Models.type_ event_model)) /\
  kw !! "data" = Some (PDict (Models.data event_model)) /\
  match kw !! "api_version" with
  | None | Some PNone => Models.api_version event_model = None
  | Some (PStr s) => Models.api_version event_model = Some s
  | Some _ => False
  end.
Proof.
  unfold Models.StripeEvent_init, Models.required_str, Models.required_dict,
    Models.optional_str.
  split.
  - destruct (kw !! "id") as [[]|]; destruct (kw !! "type") as [[]|];
      destruct (kw !! "data") as [[]|]; destruct (kw !! "api_version") as [[]|];
      intros Heq; simplify_eq; done.
  - intros (-> & -> & -> & Hv). destruct event_model as [i t d a]; simpl in *.
    destruct (kw !! "api_version") as [[]|]; try done; by subst.
Qed.

Lemma StripeEvent_init_iff_witness :
  Models.StripeEvent_init
    {[ "id" := PStr "evt_1"; "type" := PStr "charge.refunded"; "data" := PDict ∅;
       "api_version" := PStr "2024-01-01" ]}
  = inl (Models.mkStripeEvent "evt_1" "charge.refunded" ∅ (Some "2024-01-01")).
Proof.
  apply (proj2 (StripeEvent_init_iff _ _)). repeat split; vm_compute; reflexivity.
Defined.

(** X10. Keys other than the four fields are ignored by the constructor: the
    event of a real delivery carries more than the model declares. *)
Theorem StripeEvent_init_ignores_extra (kw : gmap string pyval) (key : string) (v : pyval) :
  key ∉ ["id"; "type"; "data"; "api_version"] ->
  Models.StripeEvent_init (<[key := v]> kw) = Models.StripeEvent_init kw.
Proof.
  intros Hkey.
  unfold Models.StripeEvent_init, Models.required_str, Models.required_dict,
    Models.optional_str.
  rewrite !lookup_insert_ne by (intros ->; apply Hkey; repeat constructor). reflexivity.
Qed.

Lemma StripeEvent_init_ignores_extra_witness :
  Models.StripeEvent_init (<["livemode" := PBool false]> Stub.pi_succeeded)
  = Models.StripeEvent_init Stub.pi_succeeded.
Proof.
  apply StripeEvent_init_ignores_extra.
  intros Hin. repeat (apply elem_of_cons in Hin as [Hin|Hin]; [discriminate|]).
  by apply elem_of_nil in Hin.
Defined.

(** ** The data operations *)

Module RemoteFacts.
Import Remote RemoteSpec.

Lemma quiet_ret {A} (a : A) : quiet (ret (S := world) a).
Proof. by intros w. Qed.

Lemma quiet_raise {A} (e : exn) : quiet (raise (S := world) (A := A) e).
Proof. by intros w. Qed.

Lemma quiet_lift {A} (r : A + exn) : quiet (lift (S := world) r).
Proof. intros w. by rewrite lift_run. Qed.

Lemma quiet_log_info text v : quiet (log_info text v).
Proof. by intros w. Qed.

Lemma quiet_log_error text subject e : quiet (log_error text subject e).
Proof. by intros w. Qed.

Lemma quiet_bind {A B} (m : M world A) (k : A -> M world B) :
  quiet m -> (forall a, quiet (k a)) -> quiet (bind m k).
Proof.
  intros Hm Hk w. unfold bind. specialize (Hm w).
  destruct (m w) as [[a|e] w1]; simpl in *; [|done].
  destruct (Hk a w1) as [-> ->]. done.
Qed.

Create HintDb quiet.
#[global] Hint Resolve quiet_ret quiet_raise quiet_lift quiet_log_info quiet_log_error
  quiet_bind : quiet.

Section WithAPI.
Context `{StripeAPI}.

(** The guarded call followed by quiet code: one call, whatever comes back. *)
Lemma guarded_one_call {A} text subject method target kwargs
    (k : gmap string pyval -> M world A) w :
  (forall x, quiet (k x)) ->
  let r := guarded text subject (bind (call_api method target kwargs) k) w in
  calls r.2 = (calls w ++ [mkCall method target kwargs (stripe_api_key w)])%list /\
  stripe_api_key r.2 = stripe_api_key w.
Proof.
  intros Hk. unfold guarded, try_except, bind, call_api. simpl.
  destruct (request _ _) as [x|e]; simpl.
  - destruct (Hk x (mkWorld (stripe_api_key w)
        (calls w ++ [mkCall method target kwargs (stripe_api_key w)]) (records w)))
      as [Hc Hkey].
    destruct (k x _) as [[a|e] w1]; simpl in *; [done|].
    by destruct (isinstance_StripeError e).
  - by destruct (isinstance_StripeError e).
Qed.

Lemma guarded_list_one_call {A} text subject method kwargs
    (k : list (gmap string pyval) -> M world A) w :
  (forall x, quiet (k x)) ->
  let r := guarded text subject (bind (call_api_list method kwargs) k) w in
  calls r.2 = (calls w ++ [mkCall method None kwargs (stripe_api_key w)])%list /\
  stripe_api_key r.2 = stripe_api_key w.
Proof.
  intros Hk. unfold guarded, try_except, bind, call_api_list. simpl.
  destruct (request_list _ _) as [x|e]; simpl.
  - destruct (Hk x (mkWorld (stripe_api_key w)
        (calls w ++ [mkCall method None kwargs (stripe_api_key w)]) (records w)))
      as [Hc Hkey].
    destruct (k x _) as [[a|e] w1]; simpl in *; [done|].
    by destruct (isinstance_StripeError e).
  - by destruct (isinstance_StripeError e).
Qed.



(** A listing whose answer is mapped by code that only computes. *)
Lemma guarded_list_answer {A} text subject method kwargs
    (f : list (gmap string pyval) -> A + exn) w xs :
  request_list (calls w) (mkCall method None kwargs (stripe_api_key w)) = inl xs ->
  guarded text subject (bind (call_api_list method kwargs) (fun xs => lift (f xs))) w =
  (f xs,
   mkWorld (stripe_api_key w)
     (calls w ++ [mkCall method None kwargs (stripe_api_key w)])
     match f xs with
     | inl _ => records w
     | inr e =>
         if isinstance_StripeError e then records w ++ [Failure text subject e]
         else records w
     end).
Proof.
  intros Hreq. unfold guarded, try_except, bind, call_api_list. cbn beta iota.
  rewrite Hreq. cbn beta iota. rewrite lift_run.
  destruct (f xs) as [r|e]; [done|]. by destruct (isinstance_StripeError e).
Qed.

End WithAPI.

(** [view]: all attributes present gives the dict of them. *)
Lemma view_lookup obj fields d :
  view obj fields = inl d ->
  NoDup fields.*1 ->
  (forall key attr, (key, attr) ∈ fields -> d !! key = obj !! attr /\ is_Some (obj !! attr)) /\
  (forall key, key ∉ fields.*1 -> d !! key = None).
Proof.
  revert d. induction fields as [|[k a] fields IH]; intros d Hv Hnd; simpl in *.
  - simplify_eq. split; [by intros ?? ?%elem_of_nil|]. intros. apply lookup_empty.
  - unfold getattr in Hv. destruct (obj !! a) as [v|] eqn:Ha; [|done].
    destruct (view obj fields) as [d'|] eqn:Hv'; [|done]. simplify_eq.
    apply NoDup_cons in Hnd as [Hk Hnd]. destruct (IH _ eq_refl Hnd) as [IH1 IH2].
    split.
    + intros key attr [[= -> ->]|Hin]%elem_of_cons.
      * rewrite lookup_insert_eq, Ha. eauto.
      * rewrite lookup_insert_ne; [by apply IH1|].
        intros <-. apply Hk. apply list_elem_of_fmap. by exists (k, attr).
    + intros key Hkey. apply not_elem_of_cons in Hkey as [Hne Hkey].
      rewrite lookup_insert_ne by done. by apply IH2.
Qed.

Lemma view_total obj fields :
  Forall (fun attr => is_Some (obj !! attr)) fields.*2 ->
  exists d, view obj fields = inl d.
Proof.
  induction fields as [|[k a] fields IH]; intros Hall; simpl in *; [eauto|].
  apply Forall_cons in Hall as [[v Hv] Hall]. unfold getattr. rewrite Hv.
  destruct (IH Hall) as [d ->]. eauto.
Qed.


Lemma comprehension_spec {A B} (f : A -> B + exn) (l : list A) (ys : list B) :
  comprehension f l = inl ys <-> Forall2 (fun x y => f x = inl y) l ys.
Proof.
  revert ys. induction l as [|x l IH]; intros ys; simpl.
  - split; [intros [= <-]; constructor|by intros ->%Forall2_nil_inv_l].
  - split.
    + destruct (f x) as [y|] eqn:Hx; [|done].
      destruct (comprehension f l) as [ys'|] eqn:Hl; [|done].
      intros [= <-]. constructor; [done|]. by apply IH.
    + intros (y & ys' & Hx & Hl & ->)%Forall2_cons_inv_l.
      rewrite Hx. apply IH in Hl. by rewrite Hl.
Qed.


Lemma comprehension_total {A B} (f : A -> B + exn) (l : list A) :
  Forall (fun x => exists y, f x = inl y) l -> exists ys, comprehension f l = inl ys.
Proof.
  induction 1 as [|x l [y Hy] _ [ys IH]]; simpl; [eauto|].
  rewrite Hy, IH. eauto.
Qed.

(** A dict of strings is true exactly when it has an entry. *)
Lemma py_truthy_strdict (d : gmap string string) :
  py_truthy (PDict (PStr <$> d)) = false <-> d = ∅.
Proof.
  simpl. rewrite map_to_list_fmap.
  destruct (map_to_list d) as [|kv l] eqn:Hl; simpl.
  - apply map_to_list_empty_iff in Hl. by subst.
  - split; [done|]. intros ->. by rewrite map_to_list_empty in Hl.
Qed.

End RemoteFacts.

Module DataFacts.
Import Remote RemoteSpec RemoteFacts.

Lemma set_if_not_None_lookup_eq key v d :
  set_if_not_None key v d !! key = match v with PNone => d !! key | _ => Some v end.
Proof. unfold set_if_not_None. destruct v; by rewrite ?lookup_insert_eq. Qed.

Lemma set_if_not_None_lookup_ne key v d k :
  k <> key -> set_if_not_None key v d !! k = d !! k.
Proof. intros Hne. unfold set_if_not_None. destruct v; by rewrite ?lookup_insert_ne. Qed.

Lemma set_if_lookup_eq key v d :
  set_if key v d !! key = if py_truthy v then Some v else d !! key.
Proof. unfold set_if. destruct (py_truthy v); by rewrite ?lookup_insert_eq. Qed.

Lemma set_if_lookup_ne key v d k :
  k <> key -> set_if key v d !! k = d !! k.
Proof. intros Hne. unfold set_if. destruct (py_truthy v); by rewrite ?lookup_insert_ne. Qed.

(** Looks a key up through a chain of conditional and plain stores. *)
Ltac lookup_kwargs :=
  repeat first
    [ rewrite set_if_not_None_lookup_ne by done
    | rewrite set_if_lookup_ne by done
    | rewrite lookup_insert_ne by done
    | rewrite set_if_not_None_lookup_eq
    | rewrite set_if_lookup_eq
    | rewrite lookup_insert_eq
    | rewrite lookup_singleton_ne by done
    | rewrite lookup_singleton_eq
    | rewrite lookup_empty ].

(** A key outside [keys] differs from each of them. *)
Ltac fresh_key Hkey :=
  repeat (apply not_elem_of_cons in Hkey as [? Hkey]).

Section WithAPI.
Context `{StripeAPI}.

Lemma one_call_guarded {A} text subject method target kwargs
    (k : gmap string pyval -> M world A) w :
  (forall x, quiet (k x)) ->
  one_call (guarded text subject (bind (call_api method target kwargs) k)) w.
Proof.
  intros Hk. destruct (guarded_one_call text subject method target kwargs k w Hk)
    as [Hc Hkey].
  eexists. split; [exact Hc|]. split; [done|exact Hkey].
Qed.

Lemma one_call_guarded_list {A} text subject method kwargs
    (k : list (gmap string pyval) -> M world A) w :
  (forall x, quiet (k x)) ->
  one_call (guarded text subject (bind (call_api_list method kwargs) k)) w.
Proof.
  intros Hk. destruct (guarded_list_one_call text subject method kwargs k w Hk)
    as [Hc Hkey].
  eexists. split; [exact Hc|]. split; [done|exact Hkey].
Qed.



End WithAPI.
End DataFacts.

Import Remote RemoteSpec.

(** X11. No data operation of the manager retries or batches: each of the
    twenty-two makes
    exactly one call to the library, under the key it finds in the library's
    global, and leaves that key, whatever the library answers. *)
Theorem manager_ops_one_call `{StripeAPI} (w : world) :
  (forall name description active metadata,
     one_call (StripeManagerData.create_product name description active metadata) w) /\
  (forall product_id, one_call (StripeManagerData.retrieve_product product_id) w) /\
  (forall product_id name description active metadata,
     one_call (StripeManagerData.update_product product_id name description active
                 metadata) w) /\
  (forall product_id, one_call (StripeManagerData.delete_product product_id) w) /\
  (forall active limit, one_call (StripeManagerData.list_products active limit) w) /\
  (forall product_id unit_amount currency recurring nickname active,
     one_call (StripeManagerData.create_price product_id unit_amount currency recurring
                 nickname active) w) /\
  (forall active product_id limit,
     one_call (StripeManagerData.list_prices active product_id limit) w) /\
  (forall name email description phone address metadata,
     one_call (StripeManagerData.create_customer name email description phone address
                 metadata) w) /\
  (forall customer_id name email description phone address metadata,
     one_call (StripeManagerData.update_customer customer_id name email description
                 phone address metadata) w) /\
  (forall customer_id, one_call (StripeManagerData.delete_customer customer_id) w) /\
  (forall customer_id price_id trial_period_days metadata,
     one_call (StripeManagerData.create_subscription customer_id price_id
                 trial_period_days metadata) w) /\
  (forall subscription_id,
     one_call (StripeManagerData.cancel_subscription subscription_id) w) /\
  (forall customer_id limit,
     one_call (StripeManagerData.list_subscriptions customer_id limit) w) /\
  (forall customer_id line_items success_url cancel_url mode metadata
          billing_address_collection payment_method_types allow_promotion_codes
          expires_at,
     one_call (StripeManagerData.create_checkout_session customer_id line_items
                 success_url cancel_url mode metadata billing_address_collection
                 payment_method_types allow_promotion_codes expires_at) w) /\
  (forall customer_id return_url flow_data flow_type,
     one_call (StripeManagerData.create_billing_portal_session customer_id return_url
                 flow_data flow_type) w) /\
  (forall price_id, one_call (StripeManagerData.retrieve_price price_id) w) /\
  (forall price_id active nickname,
     one_call (StripeManagerData.update_price price_id active nickname) w) /\
  (forall price_id, one_call (StripeManagerData.delete_price price_id) w) /\
  (forall customer_id, one_call (StripeManagerData.retrieve_customer customer_id) w) /\
  (forall limit, one_call (StripeManagerData.list_customers limit) w) /\
  (forall subscription_id,
     one_call (StripeManagerData.retrieve_subscription subscription_id) w) /\
  (forall session_id,
     one_call (StripeManagerData.retrieve_checkout_session session_id) w).
Proof.
  repeat split; intros;
    first [ apply DataFacts.one_call_guarded | apply DataFacts.one_call_guarded_list ];
    intros; eauto 10 with quiet.
Qed.



Module KwargsFacts.
Import Remote Given RemoteFacts.

Lemma truthy_given_str o :
  (if py_truthy (py_str o) then Some (py_str o) else None) = given_str o.
Proof. by destruct o as [[]|]. Qed.

Lemma truthy_given_int o :
  (if py_truthy (py_int o) then Some (py_int o) else None) = given_int o.
Proof.
  destruct o as [n|]; [|done]. simpl. unfold given_int.
  destruct (Z.eqb_spec n 0); by case_decide.
Qed.

Lemma truthy_given_strdict o :
  (if py_truthy (py_strdict o) then Some (py_strdict o) else None) = given_strdict o.
Proof.
  destruct o as [d|]; [|done]. unfold py_strdict, given_strdict. cbn [from_option].
  pose proof (py_truthy_strdict d) as Hd.
  destruct (py_truthy (PDict (PStr <$> d))); case_decide; try done.
  - subst. by destruct Hd as [_ Hd]; specialize (Hd eq_refl).
  - by destruct Hd as [Hd _]; specialize (Hd eq_refl).
Qed.

Lemma py_or_strdict o :
  py_or (py_strdict o) (PDict ∅) = PDict (PStr <$> default ∅ o).
Proof.
  unfold py_or. destruct o as [d|]; cbn [py_strdict from_option default]; unfold id;
    [|by rewrite fmap_empty].
  pose proof (py_truthy_strdict d) as Hd.
  destruct (py_truthy (PDict (PStr <$> d))); [done|].
  destruct Hd as [Hd _]. rewrite (Hd eq_refl). by rewrite fmap_empty.
Qed.

End KwargsFacts.

(** X13. The update operations send exactly the arguments that are not
    [None]: an empty string, [False] or an empty dict is sent as it is, and
    an argument left out does not appear in the request. *)
Theorem update_sends_what_is_given `{StripeAPI} (w : world) (ident : string)
    (name email description phone : option string) (active : option bool)
    (address metadata : option (gmap string string)) :
  (exists kw,
     calls (StripeManagerData.update_product ident name description active metadata w).2
       = (calls w ++ [mkCall "Product.modify" (Some ident) kw (stripe_api_key w)])%list /\
     kw !! "name" = PStr <$> name /\
     kw !! "description" = PStr <$> description /\
     kw !! "active" = PBool <$> active /\
     kw !! "metadata" = (fun d => PDict (PStr <$> d)) <$> metadata /\
     (forall key, key ∉ ["name"; "description"; "active"; "metadata"] ->
                  kw !! key = None)) /\
  (exists kw,
     calls (StripeManagerData.update_customer ident name email description phone
              address metadata w).2
       = (calls w ++ [mkCall "Customer.modify" (Some ident) kw (stripe_api_key w)])%list /\
     kw !! "name" = PStr <$> name /\
     kw !! "email" = PStr <$> email /\
     kw !! "description" = PStr <$> description /\
     kw !! "phone" = PStr <$> phone /\
     kw !! "address" = (fun d => PDict (PStr <$> d)) <$> address /\
     kw !! "metadata" = (fun d => PDict (PStr <$> d)) <$> metadata /\
     (forall key,
        key ∉ ["name"; "email"; "description"; "phone"; "address"; "metadata"] ->
        kw !! key = None)).
Proof.
  split; eexists; (split; [apply RemoteFacts.guarded_one_call; intros; eauto 10 with quiet|]).
  - repeat split; try (DataFacts.lookup_kwargs;
      first [by destruct name | by destruct description | by destruct active
            | by destruct metadata]).
    intros key Hkey. DataFacts.fresh_key Hkey. by DataFacts.lookup_kwargs.
  - repeat split; try (DataFacts.lookup_kwargs;
      first [by destruct name | by destruct email | by destruct description
            | by destruct phone | by destruct address | by destruct metadata]).
    intros key Hkey. DataFacts.fresh_key Hkey. by DataFacts.lookup_kwargs.
Qed.

Lemma update_sends_what_is_given_witness :
  exists kw,
    calls (StripeManagerData.update_product (H := StubAPI.echo) "prod_1" (Some "")
             None (Some false) None StubAPI.world0).2
      = [mkCall "Product.modify" (Some "prod_1") kw None] /\
    kw !! "name" = Some (PStr "") /\
    kw !! "active" = Some (PBool false) /\
    kw !! "currency" = None.
Proof.
  destruct (update_sends_what_is_given (H := StubAPI.echo) StubAPI.world0 "prod_1"
    (Some "") None None None (Some false) None None)
    as [(kw & Hc & Hn & _ & Ha & _ & Hother) _].
  exists kw. split; [exact Hc|]. split; [exact Hn|]. split; [exact Ha|].
  apply Hother. intros Hin.
  repeat (apply elem_of_cons in Hin as [Hin|Hin]; [discriminate|]).
  by apply elem_of_nil in Hin.
Defined.

(** X14. [create_customer] sends only the arguments that are true: [None],
    an empty string and an empty dict are all dropped, so a call with nothing
    but such arguments reaches the library with no argument at all. *)
Theorem create_customer_drops_empty `{StripeAPI} (w : world)
    (name email description phone : option string)
    (address metadata : option (gmap string string)) :
  exists kw,
    calls (StripeManagerData.create_customer name email description phone address
             metadata w).2
      = (calls w ++ [mkCall "Customer.create" None kw (stripe_api_key w)])%list /\
    kw !! "name" = Given.given_str name /\
    kw !! "email" = Given.given_str email /\
    kw !! "description" = Given.given_str description /\
    kw !! "phone" = Given.given_str phone /\
    kw !! "address" = Given.given_strdict address /\
    kw !! "metadata" = Given.given_strdict metadata /\
    (forall key,
       key ∉ ["name"; "email"; "description"; "phone"; "address"; "metadata"] ->
       kw !! key = None).
Proof.
  eexists. split; [apply RemoteFacts.guarded_one_call; intros; eauto 10 with quiet|].
  repeat split;
    try (DataFacts.lookup_kwargs;
         first [apply KwargsFacts.truthy_given_str | apply KwargsFacts.truthy_given_strdict]).
  intros key Hkey. DataFacts.fresh_key Hkey. by DataFacts.lookup_kwargs.
Qed.

Lemma create_customer_drops_empty_witness :
  exists kw,
    calls (StripeManagerData.create_customer (H := StubAPI.echo) (Some "") None None
             (Some "") (Some ∅) None StubAPI.world0).2
      = [mkCall "Customer.create" None kw None] /\
    kw !! "name" = None /\
    kw !! "address" = None /\
    kw !! "livemode" = None.
Proof.
  destruct (create_customer_drops_empty (H := StubAPI.echo) StubAPI.world0
    (Some "") None None (Some "") (Some ∅) None)
    as (kw & Hc & Hn & _ & _ & _ & Ha & _ & Hother).
  exists kw. split; [exact Hc|]. split; [exact Hn|]. split; [exact Ha|].
  apply Hother. intros Hin.
  repeat (apply elem_of_cons in Hin as [Hin|Hin]; [discriminate|]).
  by apply elem_of_nil in Hin.
Defined.

(** X15. [create_subscription] always sends the customer and one item with
    the price; a trial of [0] days is dropped like one left out, every other
    number of days, negative ones too, is sent; metadata is sent when it has
    an entry. *)
Theorem create_subscription_request `{StripeAPI} (w : world) (customer_id price_id : string)
    (trial_period_days : option Z) (metadata : option (gmap string string)) :
  exists kw,
    calls (StripeManagerData.create_subscription customer_id price_id trial_period_days
             metadata w).2
      = (calls w ++ [mkCall "Subscription.create" None kw (stripe_api_key w)])%list /\
    kw !! "customer" = Some (PStr customer_id) /\
    kw !! "items" = Some (PList [PDict {[ "price" := PStr price_id ]}]) /\
    kw !! "trial_period_days" = Given.given_int trial_period_days /\
    kw !! "metadata" = Given.given_strdict metadata /\
    (forall key, key ∉ ["customer"; "items"; "trial_period_days"; "metadata"] ->
                 kw !! key = None).
Proof.
  eexists. split; [apply RemoteFacts.guarded_one_call; intros; eauto 10 with quiet|].
  repeat split;
    try (DataFacts.lookup_kwargs;
         first [done | apply KwargsFacts.truthy_given_int
               | apply KwargsFacts.truthy_given_strdict]).
  intros key Hkey. DataFacts.fresh_key Hkey. by DataFacts.lookup_kwargs.
Qed.

Lemma create_subscription_request_witness :
  exists kw,
    calls (StripeManagerData.create_subscription (H := StubAPI.echo) "cus_1" "price_1"
             (Some 0%Z) None StubAPI.world0).2
      = [mkCall "Subscription.create" None kw None] /\
    kw !! "trial_period_days" = None /\
    kw !! "cancel_at" = None.
Proof.
  destruct (create_subscription_request (H := StubAPI.echo) StubAPI.world0
    "cus_1" "price_1" (Some 0%Z) None) as (kw & Hc & _ & _ & Ht & _ & Hother).
  exists kw. split; [exact Hc|]. split; [exact Ht|].
  apply Hother. intros Hin.
  repeat (apply elem_of_cons in Hin as [Hin|Hin]; [discriminate|]).
  by apply elem_of_nil in Hin.
Defined.

(** X16. [create_product] always sends its four arguments: a description
    left out goes as [None], and metadata left out goes as the empty dict. *)
Theorem create_product_request `{StripeAPI} (w : world) (name : string)
    (description : option string) (active : bool)
    (metadata : option (gmap string string)) :
  calls (StripeManagerData.create_product name description active metadata w).2
  = (calls w ++
     [mkCall "Product.create" None
        {[ "name" := PStr name;
           "description" := from_option PStr PNone description;
           "active" := PBool active;
           "metadata" := PDict (PStr <$> default ∅ metadata) ]}
        (stripe_api_key w)])%list.
Proof.
  rewrite <- KwargsFacts.py_or_strdict.
  apply RemoteFacts.guarded_one_call; intros; eauto 10 with quiet.
Qed.

(** X17. [delete_product] does not delete: it asks the library to set
    [active] to [False], and on an answer reports ["deleted": True] together
    with whatever ["active"] the answer carries, after one INFO record. *)
Theorem delete_product_result `{StripeAPI} (w : world) (product_id : string)
    (product : gmap string pyval) (i a : pyval) :
  request (calls w)
    (mkCall "Product.modify" (Some product_id) {[ "active" := PBool false ]}
       (stripe_api_key w)) = inl product ->
  product !! "id" = Some i ->
  product !! "active" = Some a ->
  StripeManagerData.delete_product product_id w =
  (inl {[ "id" := i; "deleted" := PBool true; "active" := a ]},
   mkWorld (stripe_api_key w)
     (calls w ++ [mkCall "Product.modify" (Some product_id) {[ "active" := PBool false ]}
                    (stripe_api_key w)])
     (records w ++ [Info "Deactivated product: " i])).
Proof.
  intros Hreq Hi Ha.
  unfold StripeManagerData.delete_product, guarded, try_except, bind, call_api, getattr.
  simpl. rewrite Hreq. simpl. rewrite Hi. simpl. rewrite ?Hi. simpl. by rewrite Ha.
Qed.

Lemma delete_product_result_witness :
  (StripeManagerData.delete_product (H := StubAPI.echo) "prod_1" StubAPI.world0).1
  = inl {[ "id" := PStr "prod_1"; "deleted" := PBool true; "active" := PBool false ]}.
Proof.
  rewrite (delete_product_result (H := StubAPI.echo) StubAPI.world0 "prod_1"
    (<["id" := PStr "prod_1"]> (<["created" := PInt 1700000000]>
       {[ "active" := PBool false ]})) (PStr "prod_1") (PBool false));
    vm_compute; reflexivity.
Defined.

Lemma product_fields_NoDup : NoDup (StripeManagerData.product_fields.*1).
Proof.
  apply NoDup_ListNoDup. vm_compute. repeat constructor; simpl; intuition discriminate.
Qed.

Lemma product_fields_mem (attr : string) :
  attr ∈ ["id"; "name"; "description"; "active"; "created"] ->
  (attr, attr) ∈ StripeManagerData.product_fields.
Proof.
  intros Hattr. unfold StripeManagerData.product_fields.
  repeat (apply elem_of_cons in Hattr as [->|Hattr];
          [solve [repeat first [apply list_elem_of_here | apply list_elem_of_further]]|]).
  by apply elem_of_nil in Hattr.
Qed.

(** X18. [list_products] always sends [limit] and sends [active] when it is
    not [None], [False] included; when every product of the answer has the five
    attributes, the result has one dict per product, in the order of the
    answer, with those five entries and no other, and nothing is logged. *)
Theorem list_products_result `{StripeAPI} (w : world) (active : option bool) (limit : Z) :
  exists kw,
    calls (StripeManagerData.list_products active limit w).2
      = (calls w ++ [mkCall "Product.list" None kw (stripe_api_key w)])%list /\
    kw !! "limit" = Some (PInt limit) /\
    kw !! "active" = PBool <$> active /\
    (forall key, key ∉ ["limit"; "active"] -> kw !! key = None) /\
    (forall products,
       request_list (calls w) (mkCall "Product.list" None kw (stripe_api_key w))
         = inl products ->
       Forall (fun p => Forall (fun attr => is_Some (p !! attr))
                          ["id"; "name"; "description"; "active"; "created"]) products ->
       exists result,
         (StripeManagerData.list_products active limit w).1 = inl result /\
         records (StripeManagerData.list_products active limit w).2 = records w /\
         Forall2 (fun (p d : gmap string pyval) =>
                    forall key,
                      d !! key =
                      if bool_decide (key ∈ ["id"; "name"; "description"; "active"; "created"])
                      then p !! key else None)
           products result).
Proof.
  eexists. split; [apply RemoteFacts.guarded_list_one_call; intros; eauto 10 with quiet|].
  split; [by DataFacts.lookup_kwargs|].
  split; [DataFacts.lookup_kwargs; by destruct active|].
  split; [intros key Hkey; DataFacts.fresh_key Hkey; by DataFacts.lookup_kwargs|].
  intros products Hreq Hall.
  destruct (RemoteFacts.comprehension_total
              (fun p => view p StripeManagerData.product_fields) products) as [result Hres].
  { eapply Forall_impl; [exact Hall|]. intros p Hp. by apply RemoteFacts.view_total. }
  exists result.
  unfold StripeManagerData.list_products.
  rewrite (RemoteFacts.guarded_list_answer _ _ _ _ _ _ _ Hreq), Hres.
  split; [done|]. split; [done|].
  apply RemoteFacts.comprehension_spec in Hres.
  eapply Forall2_impl; [exact Hres|]. intros p d Hv key. cbn beta in Hv.
  destruct (RemoteFacts.view_lookup _ _ _ Hv product_fields_NoDup) as [Hin Hout].
  case_bool_decide as Hkey.
  - by destruct (Hin _ _ (product_fields_mem _ Hkey)).
  - apply Hout. exact Hkey.
Qed.

Lemma list_products_result_witness :
  exists result,
    (StripeManagerData.list_products (H := StubAPI.echo) (Some false) 10 StubAPI.world0).1
      = inl result /\
    length result = 2.
Proof.
  destruct (list_products_result (H := StubAPI.echo) StubAPI.world0 (Some false) 10)
    as (kw & _ & _ & _ & _ & Hres).
  destruct (Hres [StubAPI.prod "prod_1" "Basic" true; StubAPI.prod "prod_2" "Pro" false])
    as (result & Hr & _ & Hall).
  - reflexivity.
  - repeat constructor; vm_compute; eauto.
  - exists result. split; [exact Hr|].
    apply Forall2_length in Hall. by rewrite <- Hall.
Defined.





(** X21. The manager keeps its key in the library's global, not with the
    request: after a second manager has been made with another key, a data
    operation, which names no manager, is sent under the second key. *)
Theorem manager_key_is_global `{StripeAPI} (w : world) (key1 key2 product_id : string) :
  let r1 := StripeManagerData.init key1 w in
  let r2 := StripeManagerData.init key2 r1.2 in
  let r := StripeManagerData.retrieve_product product_id r2.2 in
  (r1.1 = inl (StripeManager.init key1) /\ stripe_api_key r1.2 = Some key1) /\
  calls r.2 =
    (calls w ++ [mkCall "Product.retrieve" (Some product_id) ∅ (Some key2)])%list.
Proof.
  split; [done|].
  unfold StripeManagerData.retrieve_product.
  by rewrite (proj1 (RemoteFacts.guarded_one_call _ _ _ _ _ _ _
                       (fun x => RemoteFacts.quiet_lift _))).
Qed.

(** X22. The handler sets the library's key to its own before each data
    operation, sends the request under it and leaves it set, so that a
    manager made before is from then on sent under the handler's key.
    [deactivate_product] and [deactivate_price] ask for [active] to be
    [False], log nothing, and pass on whatever the library raises. *)
Theorem handler_sets_its_key `{StripeAPI} (w : world) (self : StripeHandler.state)
    (ident manager_key product_id : string) :
  let key := StripeHandler.api_key self in
  let r := StripeHandlerData.deactivate_product self ident w in
  let r' := StripeHandlerData.deactivate_price self ident w in
  let c := mkCall "Product.modify" (Some ident) {[ "active" := PBool false ]} (Some key) in
  let c' := mkCall "Price.modify" (Some ident) {[ "active" := PBool false ]} (Some key) in
  r = (match request (calls w) c with inl _ => inl tt | inr e => inr e end,
       mkWorld (Some key) (calls w ++ [c]) (records w)) /\
  r' = (match request (calls w) c' with inl _ => inl tt | inr e => inr e end,
        mkWorld (Some key) (calls w ++ [c']) (records w)) /\
  (let w1 := (StripeManagerData.init manager_key w).2 in
   let w2 := (StripeHandlerData.deactivate_product self ident w1).2 in
   calls (StripeManagerData.retrieve_product product_id w2).2 =
     (calls w2 ++ [mkCall "Product.retrieve" (Some product_id) ∅ (Some key)])%list).
Proof.
  repeat split.
  - unfold StripeHandlerData.deactivate_product, bind, set_api_key, call_api.
    cbn beta iota zeta. cbn [calls stripe_api_key records].
    by destruct (request _ _).
  - unfold StripeHandlerData.deactivate_price, bind, set_api_key, call_api.
    cbn beta iota zeta. cbn [calls stripe_api_key records].
    by destruct (request _ _).
  - unfold StripeManagerData.retrieve_product.
    rewrite (proj1 (RemoteFacts.guarded_one_call _ _ _ _ _ _ _
                      (fun x => RemoteFacts.quiet_lift _))).
    unfold StripeHandlerData.deactivate_product, bind, set_api_key, call_api.
    cbn beta iota zeta. cbn [calls stripe_api_key records].
    by destruct (request _ _).
Qed.

(** X23. [create_subscription_product] makes two requests under the
    handler's key: the product by its name alone, then the price with the
    product's id, the amount, the currency and the interval; it returns the two
    ids and logs nothing. *)
Theorem create_subscription_product_result `{StripeAPI} (w : world)
    (self : StripeHandler.state) (name : string) (amount : Z) (currency interval : string)
    (product price : gmap string pyval) (pid prid : pyval) :
  let key := Some (StripeHandler.api_key self) in
  let c1 := mkCall "Product.create" None {[ "name" := PStr name ]} key in
  let c2 := mkCall "Price.create" None
              {[ "product" := pid;
                 "unit_amount" := PInt amount;
                 "currency" := PStr currency;
                 "recurring" := PDict {[ "interval" := PStr interval ]} ]} key in
  request (calls w) c1 = inl product ->
  product !! "id" = Some pid ->
  request (calls w ++ [c1]) c2 = inl price ->
  price !! "id" = Some prid ->
  StripeHandlerData.create_subscription_product self name amount currency interval w =
  (inl {[ "product_id" := pid; "price_id" := prid ]},
   mkWorld key (calls w ++ [c1; c2]) (records w)).
Proof.
  intros key c1 c2 Hreq1 Hpid Hreq2 Hprid. subst key c1 c2.
  unfold StripeHandlerData.create_subscription_product, bind, set_api_key, call_api,
    getattr.
  repeat first
    [ rewrite Hreq1 | rewrite Hreq2 | rewrite Hpid | rewrite Hprid | rewrite lift_run
    | progress cbn beta iota zeta
    | progress cbn [calls stripe_api_key records] ].
  by rewrite <- app_assoc.
Qed.

Lemma create_subscription_product_result_witness :
  (StripeHandlerData.create_subscription_product (H := StubAPI.echo) Stub.handler0
     "Pro" 1999 "usd" "month" StubAPI.world0).1
  = inl {[ "product_id" := PStr "new_Product.create";
           "price_id" := PStr "new_Price.create" ]}.
Proof.
  rewrite (create_subscription_product_result (H := StubAPI.echo) StubAPI.world0
    Stub.handler0 "Pro" 1999 "usd" "month"
    (<["id" := PStr "new_Product.create"]> (<["created" := PInt 1700000000]>
       {[ "name" := PStr "Pro" ]}))
    (<["id" := PStr "new_Price.create"]> (<["created" := PInt 1700000000]>
       {[ "product" := PStr "new_Product.create";
          "unit_amount" := PInt 1999;
          "currency" := PStr "usd";
          "recurring" := PDict {[ "interval" := PStr "month" ]} ]}))
    (PStr "new_Product.create") (PStr "new_Price.create"));
    vm_compute; reflexivity.
Defined.

(** X24. There is no undo in [create_subscription_product]: when the price
    request raises, the exception is passed on as it is, unlogged, and the
    product request has been made and is not followed by any other. *)
Theorem create_subscription_product_no_rollback `{StripeAPI} (w : world)
    (self : StripeHandler.state) (name : string) (amount : Z) (currency interval : string)
    (product : gmap string pyval) (pid : pyval) (e : exn) :
  let key := Some (StripeHandler.api_key self) in
  let c1 := mkCall "Product.create" None {[ "name" := PStr name ]} key in
  let c2 := mkCall "Price.create" None
              {[ "product" := pid;
                 "unit_amount" := PInt amount;
                 "currency" := PStr currency;
                 "recurring" := PDict {[ "interval" := PStr interval ]} ]} key in
  request (calls w) c1 = inl product ->
  product !! "id" = Some pid ->
  request (calls w ++ [c1]) c2 = inr e ->
  StripeHandlerData.create_subscription_product self name amount currency interval w =
  (inr e, mkWorld key (calls w ++ [c1; c2]) (records w)).
Proof.
  intros key c1 c2 Hreq1 Hpid Hreq2. subst key c1 c2.
  unfold StripeHandlerData.create_subscription_product, bind, set_api_key, call_api,
    getattr.
  repeat first
    [ rewrite Hreq1 | rewrite Hreq2 | rewrite Hpid | rewrite lift_run
    | progress cbn beta iota zeta
    | progress cbn [calls stripe_api_key records] ].
  by rewrite <- app_assoc.
Qed.

Lemma create_subscription_product_no_rollback_witness :
  let r := StripeHandlerData.create_subscription_product (H := StubAPI.no_prices)
             Stub.handler0 "Pro" 1999 "usd" "month" StubAPI.world0 in
  r.1 = inr (OtherException "InvalidRequestError" "Invalid currency") /\
  api_method <$> calls r.2 = ["Product.create"; "Price.create"].
Proof.
  intros r. subst r.
  rewrite (create_subscription_product_no_rollback (H := StubAPI.no_prices) StubAPI.world0
    Stub.handler0 "Pro" 1999 "usd" "month"
    (<["id" := PStr "new_Product.create"]> (<["created" := PInt 1700000000]>
       {[ "name" := PStr "Pro" ]}))
    (PStr "new_Product.create")
    (OtherException "InvalidRequestError" "Invalid currency"));
    [done | vm_compute; reflexivity ..].
Defined.
